(** * wtanet: the Winner-Take-All layer process and its sub-process model

    A shallow embedding of [src/wtanet/proc/wtalayer/process.py]
    ([WTALayer.__init__]) and [src/wtanet/proc/wtalayer/models.py]
    ([SubWTALayerModel.__init__]), together with the part of Python, of
    numpy and of the lava framework that these two constructors rely on:
    indexing, [np.eye], [np.ones], broadcasting and the conversion to
    float64, and the checks the framework makes when a variable, a port
    or a [Dense] process is created, when two ports are connected and
    when two variables are aliased.

    Numbers are whole numbers: the weights and neuron parameters of the
    layer are Loihi fixed-point quantities.  An array entry is the whole
    number an int or a float64 holds; a weight that meets a float64 array
    is first converted to float64, rounded to 53 bits or refused when it
    is too large.  Python values of type float (fractions, inf, nan) are
    not among the values of the embedding. *)

From stdpp Require Import gmap strings list.
From Stdlib Require Import ZArith Lia.

(** ** Exceptions and fallible computations *)

(** The exception classes that matter here.  [TypeError], [ValueError],
    [IndexError], [OverflowError] and [AttributeError] are what Python
    and numpy raise, [AssertionError] what the lava framework raises when
    a shape is not a tuple or two shapes do not match;
    [ConfigurationError] is the class named by the specification of the
    layer. *)
Inductive exn :=
| TypeError | ValueError | IndexError | OverflowError | AttributeError
| AssertionError | ConfigurationError.

Inductive result (A : Type) :=
| Ok (a : A)
| Raise (e : exn).
Arguments Ok {A} a.
Arguments Raise {A} e.

Definition bind {A B} (c : result A) (k : A -> result B) : result B :=
  match c with
  | Ok a => k a
  | Raise e => Raise e
  end.

Notation "x <- c ;; k" := (bind c (fun x => k))
  (at level 100, c at next level, right associativity).

Fixpoint sequence {A} (cs : list (result A)) : result (list A) :=
  match cs with
  | [] => Ok []
  | c :: cs' => a <- c ;; l <- sequence cs' ;; Ok (a :: l)
  end.

Definition raises {A} (c : result A) (e : exn) : Prop := c = Raise e.
Definition completes {A} (c : result A) : Prop := exists a, c = Ok a.

(** ** numpy arrays *)

(** An array is its shape and its row-major buffer. *)
Record ndarray := mk_ndarray { nd_shape : list nat; nd_data : list Z }.

Definition ndim (a : ndarray) : nat := length (nd_shape a).

Definition size (s : list nat) : nat := fold_right Nat.mul 1 s.

(** All multi-indices of a shape, in row-major order. *)
Fixpoint ndindex (s : list nat) : list (list nat) :=
  match s with
  | [] => [[]]
  | d :: s' => flat_map (fun i => map (cons i) (ndindex s')) (seq 0 d)
  end.

(** Offset of a multi-index in the buffer. *)
Fixpoint ravel (s idx : list nat) : nat :=
  match s, idx with
  | _ :: s', i :: idx' => i * size s' + ravel s' idx'
  | _, _ => 0
  end.

(** [a[idx]] for a full multi-index. *)
Definition item (a : ndarray) (idx : list nat) : Z :=
  nth (ravel (nd_shape a) idx) (nd_data a) 0%Z.

(** Broadcasting: shapes are aligned on their last axis; two lengths are
    compatible when they are equal or one of them is 1. *)
Fixpoint broadcast_rev (r1 r2 : list nat) : option (list nat) :=
  match r1, r2 with
  | [], r | r, [] => Some r
  | d1 :: r1', d2 :: r2' =>
      if d1 =? d2 then option_map (cons d1) (broadcast_rev r1' r2')
      else if d1 =? 1 then option_map (cons d2) (broadcast_rev r1' r2')
      else if d2 =? 1 then option_map (cons d1) (broadcast_rev r1' r2')
      else None
  end.

Definition broadcast_shapes (s1 s2 : list nat) : option (list nat) :=
  option_map (@rev nat) (broadcast_rev (rev s1) (rev s2)).

(** The index of an operand of shape [s] that a result index reads: the
    leading axes the operand lacks are dropped, an axis of length 1 is
    read at 0. *)
Definition broadcast_index (s idx : list nat) : list nat :=
  zip_with (fun d i => if d =? 1 then 0 else i) s
           (drop (length idx - length s) idx).

(** ** float64 *)

(** [z] rounded to the nearest multiple of [2 ^ k], and to the even one
    when two are equally near. *)
Definition round_half_even (z k : Z) : Z :=
  let q := (z / 2 ^ k)%Z in
  let r := (z mod 2 ^ k)%Z in
  let half := (2 ^ (k - 1))%Z in
  ((if (r <? half)%Z then q
    else if (half <? r)%Z then q + 1
    else if Z.even q then q else q + 1) * 2 ^ k)%Z.

(** The float64 nearest to a non-negative whole number: its leading 53
    bits are kept. *)
Definition nearest_float64 (z : Z) : Z :=
  let k := (Z.log2 z - 52)%Z in
  if (k <=? 0)%Z then z else round_half_even z k.

(** The conversion of an int to float64: the nearest float64, and
    [OverflowError] when that is beyond the largest one. *)
Definition float64_of_int (z : Z) : result Z :=
  let r := (Z.sgn z * nearest_float64 (Z.abs z))%Z in
  if (2 ^ 1024 <=? Z.abs r)%Z then Raise OverflowError else Ok r.

(** The whole numbers every float64 operation of this development keeps
    exact. *)
Definition exact_in_float64 (z : Z) : Prop := (Z.abs z <= 2 ^ 53)%Z.

(** Elementwise product or difference of a float64 array [a] of zeros and
    ones ([np.eye], [np.ones] and their difference) and an array [b]: the
    shapes are broadcast, then the entries of [b] are converted to
    float64, then the operation is applied entry by entry.  The float64
    product of a zero or a one with a float64 is the exact product, and
    the one difference taken, of [np.ones] and [np.eye], is exact as
    well. *)
Definition elementwise (op : Z -> Z -> Z) (a b : ndarray) : result ndarray :=
  match broadcast_shapes (nd_shape a) (nd_shape b) with
  | None => Raise ValueError
  | Some s =>
      fb <- sequence (map float64_of_int (nd_data b)) ;;
      Ok {| nd_shape := s;
            nd_data := map (fun idx =>
                              op (item a (broadcast_index (nd_shape a) idx))
                                 (item {| nd_shape := nd_shape b; nd_data := fb |}
                                       (broadcast_index (nd_shape b) idx)))
                           (ndindex s) |}
  end.

(** ** Python values *)

(** The values a keyword argument of the layer can hold: an int, a tuple,
    a list, or a numpy array. *)
#[warnings="-register-all"]
Inductive pyval :=
| PyInt (z : Z)
| PyTuple (xs : list pyval)
| PyList (xs : list pyval)
| PyNdarray (a : ndarray).

(** [isinstance(v, tuple)]. *)
Definition is_tuple (v : pyval) : bool :=
  match v with
  | PyTuple _ => true
  | _ => false
  end.

(** The truth value of [a == k] for an array [a] and an int [k]: the
    entries are compared one by one, and the array of the outcomes has a
    truth value when it has one entry; an empty one counts as false. *)
Definition array_eq_int (a : ndarray) (k : Z) : result bool :=
  match nd_data a with
  | [] => Ok false
  | [x] => Ok (x =? k)%Z
  | _ => Raise ValueError
  end.

#[global] Instance ndarray_eq_dec : EqDecision ndarray.
Proof. solve_decision. Defined.

(** [a == b] as it is evaluated on shapes and their entries.  Two tuples
    are compared entry by entry up to the first pair that differs, then
    by length; two lists by length first; a tuple never equals a list or
    an int.  An array that is an entry of a shape meets an int, or
    itself: the entries of the shape of the layer are the same objects
    wherever the shape is used, and an object equals itself. *)
Fixpoint py_eq (a b : pyval) : result bool :=
  let all :=
    fix all (xs ys : list pyval) : result bool :=
      match xs, ys with
      | [], [] => Ok true
      | x :: xs', y :: ys' =>
          c <- py_eq x y ;; if c : bool then all xs' ys' else Ok false
      | _, _ => Ok false
      end in
  match a, b with
  | PyInt x, PyInt y => Ok (x =? y)%Z
  | PyInt k, PyNdarray c | PyNdarray c, PyInt k => array_eq_int c k
  | PyNdarray c, PyNdarray d =>
      if bool_decide (c = d) then Ok true
      else match nd_data c, nd_data d with
           | [x], [y] => Ok (x =? y)%Z
           | [], _ | _, [] => Ok false
           | _, _ => Raise ValueError
           end
  | PyTuple xs, PyTuple ys => all xs ys
  | PyList xs, PyList ys =>
      if length xs =? length ys then all xs ys else Ok false
  | _, _ => Ok false
  end.

(** The comparison of the entries of two tuples inside [py_eq], by name. *)
Definition py_eq_all : list pyval -> list pyval -> result bool :=
  fix all (xs ys : list pyval) : result bool :=
    match xs, ys with
    | [], [] => Ok true
    | x :: xs', y :: ys' =>
        c <- py_eq x y ;; if c : bool then all xs' ys' else Ok false
    | _, _ => Ok false
    end.

(** [v[i]] for a non-negative literal index. *)
Definition getitem (v : pyval) (i : nat) : result pyval :=
  match v with
  | PyInt _ => Raise TypeError
  | PyTuple xs | PyList xs =>
      match nth_error xs i with
      | Some x => Ok x
      | None => Raise IndexError
      end
  | PyNdarray a =>
      match nd_shape a with
      | [] => Raise IndexError
      | d :: s =>
          if i <? d
          then Ok (PyNdarray {| nd_shape := s;
                                nd_data := take (size s)
                                                (drop (i * size s) (nd_data a)) |})
          else Raise IndexError
      end
  end.

(** A value used as an array dimension: an integer (or integer array
    scalar), which must not be negative. *)
Definition as_dim (v : pyval) : result nat :=
  match v with
  | PyInt z => if (z <? 0)%Z then Raise ValueError else Ok (Z.to_nat z)
  | PyNdarray {| nd_shape := []; nd_data := [z] |} =>
      if (z <? 0)%Z then Raise ValueError else Ok (Z.to_nat z)
  | _ => Raise TypeError
  end.

(** A value used as a shape: an integer or a sequence of dimensions. *)
Definition as_shape (v : pyval) : result (list nat) :=
  match v with
  | PyTuple ds | PyList ds => sequence (map as_dim ds)
  | _ => d <- as_dim v ;; Ok [d]
  end.

(** Stacking equally shaped arrays along a new leading axis. *)
Definition stack (rs : list ndarray) : result ndarray :=
  match rs with
  | [] => Ok {| nd_shape := [0]; nd_data := [] |}
  | a :: _ =>
      if forallb (fun b => bool_decide (nd_shape b = nd_shape a)) rs
      then Ok {| nd_shape := length rs :: nd_shape a;
                 nd_data := concat (map nd_data rs) |}
      else Raise ValueError
  end.

(** [np.asarray]: the array a value stands for in an arithmetic
    expression.  A ragged nested sequence is refused. *)
Fixpoint np_asarray (v : pyval) : result ndarray :=
  match v with
  | PyInt z => Ok {| nd_shape := []; nd_data := [z] |}
  | PyNdarray a => Ok a
  | PyTuple xs | PyList xs => rs <- sequence (map np_asarray xs) ;; stack rs
  end.

(** [np.eye(N)]. *)
Definition eye (n : nat) : ndarray :=
  {| nd_shape := [n; n];
     nd_data := flat_map (fun i => map (fun j => if i =? j then 1%Z else 0%Z)
                                       (seq 0 n))
                         (seq 0 n) |}.

Definition np_eye (N : pyval) : result ndarray :=
  n <- as_dim N ;; Ok (eye n).

(** [np.ones(shape=...)]. *)
Definition full (s : list nat) (x : Z) : ndarray :=
  {| nd_shape := s; nd_data := repeat x (size s) |}.

Definition np_ones (shape : pyval) : result ndarray :=
  s <- as_shape shape ;; Ok (full s 1%Z).

(** [a * w] and [a - w] with a float64 array on the left. *)
Definition np_multiply (a : ndarray) (w : pyval) : result ndarray :=
  b <- np_asarray w ;; elementwise Z.mul a b.

Definition np_subtract (a : ndarray) (w : pyval) : result ndarray :=
  b <- np_asarray w ;; elementwise Z.sub a b.

(** [np.broadcast_to(w, s)]: the value [w] spread over the shape [s]. *)
Definition np_broadcast_to (w : pyval) (s : list nat) : result ndarray :=
  a <- np_asarray w ;;
  if bool_decide (broadcast_shapes (nd_shape a) s = Some s)
  then Ok {| nd_shape := s;
             nd_data := map (fun idx => item a (broadcast_index (nd_shape a) idx))
                            (ndindex s) |}
  else Raise ValueError.

(** [isinstance(w, np.ndarray) and w.ndim == 2]. *)
Definition is_ndarray_2d (w : pyval) : bool :=
  match w with
  | PyNdarray a => ndim a =? 2
  | _ => false
  end.

(** [d.get(key, default)] on a keyword dictionary. *)
Definition get (d : gmap string pyval) (key : string) (dflt : pyval) : pyval :=
  default dflt (d !! key).

(** ** The framework objects the constructors create

    [Var], [InPort], [OutPort], [Dense] and [LIF] belong to the lava
    framework.  A constructor call is recorded with the arguments it is
    given; an argument the call does not pass is [None].  The checks the
    framework makes on shapes are part of the calls: the shape of a
    variable or port must be a tuple, the weights of a [Dense] process a
    2-D array, and two ports that are connected, or two variables that
    are aliased, must have equal shapes. *)

Record Var := mk_Var { var_shape : pyval; var_init : pyval }.
Record InPort := mk_InPort { in_shape : pyval }.
Record OutPort := mk_OutPort { out_shape : pyval }.

(** [Var(shape=..., init=...)], [InPort(shape=...)], [OutPort(shape=...)]. *)
Definition Var_new (shape init : pyval) : result Var :=
  if is_tuple shape then Ok (mk_Var shape init) else Raise AssertionError.

Definition InPort_new (shape : pyval) : result InPort :=
  if is_tuple shape then Ok (mk_InPort shape) else Raise AssertionError.

Definition OutPort_new (shape : pyval) : result OutPort :=
  if is_tuple shape then Ok (mk_OutPort shape) else Raise AssertionError.

(** [src.connect(dst)] on two ports and [x.alias(y)] on two variables,
    given the shapes of the two: the framework asserts that they are
    equal. *)
Definition connect (src dst : pyval) : result unit :=
  same <- py_eq src dst ;;
  if same : bool then Ok tt else Raise AssertionError.

Definition alias (x y : pyval) : result unit :=
  same <- py_eq x y ;;
  if same : bool then Ok tt else Raise AssertionError.

(** [w.shape] of an array, as the tuple numpy returns. *)
Definition shape_of (a : ndarray) : pyval :=
  PyTuple (map (fun d => PyInt (Z.of_nat d)) (nd_shape a)).

(** The array a variable holds before the first step: the framework
    allocates an array of the variable's shape and spreads the initial
    value over it. *)
Definition var_value (x : Var) : result ndarray :=
  s <- as_shape (var_shape x) ;;
  np_broadcast_to (var_init x) s.

(** ** process.py *)

Module process.

Record WTALayer := mk_WTALayer {
  proc_params : gmap string pyval;
  s_in : InPort;
  s_out : OutPort;
  u : Var;
  v : Var;
  du : Var;
  dv : Var;
  vth : Var;
  inp_weights : Var;
  exc_weights : Var;
  inh_weights : Var;
  num_message_bits : Var
}.

(** [WTALayer.__init__], lines 91-112, applied to its keyword arguments.
    The call of the base class constructor stores the keyword arguments,
    as given, in [proc_params]. *)
Definition __init__ (kwargs : gmap string pyval) : result WTALayer :=
  let shape := get kwargs "shape" (PyTuple [PyInt 1; PyInt 1]) in
  let inp_weights := get kwargs "inp_weights" (PyInt 0) in
  let exc_weights := get kwargs "exc_weights" (PyInt 5) in
  let inh_weights := get kwargs "inh_weights" (PyInt (-5)) in
  let du := get kwargs "du" (PyInt 4095) in
  let dv := get kwargs "dv" (PyInt 0) in
  let vth := get kwargs "vth" (PyInt 10) in
  let num_message_bits := get kwargs "num_message_bits" (PyInt 1) in
  n_in <- getitem shape 1 ;;
  s_in <- InPort_new (PyTuple [n_in]) ;;
  n_out <- getitem shape 0 ;;
  s_out <- OutPort_new (PyTuple [n_out]) ;;
  n_u <- getitem shape 0 ;;
  u <- Var_new (PyTuple [n_u]) (PyInt 0) ;;
  n_v <- getitem shape 0 ;;
  v <- Var_new (PyTuple [n_v]) (PyInt 0) ;;
  du <- Var_new (PyTuple [PyInt 1]) du ;;
  dv <- Var_new (PyTuple [PyInt 1]) dv ;;
  vth <- Var_new (PyTuple [PyInt 1]) vth ;;
  inp_weights <- Var_new shape inp_weights ;;
  exc_weights <- Var_new shape exc_weights ;;
  inh_weights <- Var_new shape inh_weights ;;
  num_message_bits <- Var_new (PyTuple [PyInt 1]) num_message_bits ;;
  Ok (mk_WTALayer kwargs s_in s_out u v du dv vth
        inp_weights exc_weights inh_weights num_message_bits).

End process.

(** ** models.py *)

Module models.

Record Dense := mk_Dense {
  weights : pyval;
  num_message_bits : option pyval
}.

Record LIF := mk_LIF {
  shape : pyval;
  du : pyval;
  dv : pyval;
  vth : pyval
}.

(** [Dense(weights=..., num_message_bits=...)]: the weights must have two
    dimensions, and the process reads their [shape]. *)
Definition Dense_new (weights : pyval) (num_message_bits : option pyval)
  : result Dense :=
  a <- np_asarray weights ;;
  if ndim a =? 2
  then match weights with
       | PyNdarray _ => Ok (mk_Dense weights num_message_bits)
       | _ => Raise AttributeError
       end
  else Raise ValueError.

(** The shapes of the ports and variables of a [Dense] process with
    weights of shape [(rows, cols)]: [s_in] has shape [(cols,)], [a_out]
    has shape [(rows,)], [weights] the shape of the array, and
    [num_message_bits] the shape [(1,)]. *)
Definition Dense_weights_shape (d : Dense) : pyval :=
  match weights d with
  | PyNdarray a => shape_of a
  | _ => PyTuple []
  end.

Definition Dense_s_in_shape (d : Dense) : pyval :=
  match weights d with
  | PyNdarray a => PyTuple [PyInt (Z.of_nat (nth 1 (nd_shape a) 0))]
  | _ => PyTuple []
  end.

Definition Dense_a_out_shape (d : Dense) : pyval :=
  match weights d with
  | PyNdarray a => PyTuple [PyInt (Z.of_nat (nth 0 (nd_shape a) 0))]
  | _ => PyTuple []
  end.

(** The processes a port or variable belongs to: the layer itself and
    the four sub-processes of its model. *)
Inductive member := proc | self_dense | self_lif | self_dense_exc | self_dense_inh.

Inductive port_name := s_in | s_out | a_in | a_out.

#[global] Instance member_eq_dec : EqDecision member.
Proof. solve_decision. Defined.

#[global] Instance port_name_eq_dec : EqDecision port_name.
Proof. solve_decision. Defined.

Definition port : Type := member * port_name.
Definition var_ref : Type := member * string.

Record SubWTALayerModel := mk_SubWTALayerModel {
  dense : Dense;
  lif : LIF;
  dense_exc : Dense;
  dense_inh : Dense;
  (** [src.connect(dst)], in program order *)
  connections : list (port * port);
  (** [proc.vars.x.alias(sub.vars.y)], in program order *)
  aliases : list (var_ref * var_ref)
}.

(** Lines 39-40 and 41-42: the weights of the input and of the
    excitatory connections. *)
Definition diagonal_weights (shape w : pyval) : result pyval :=
  if negb (is_ndarray_2d w)
  then n <- getitem shape 0 ;;
       e <- np_eye n ;;
       r <- np_multiply e w ;;
       Ok (PyNdarray r)
  else Ok w.

(** Lines 43-46: the weights of the inhibitory connections. *)
Definition off_diagonal_weights (shape w : pyval) : result pyval :=
  if negb (is_ndarray_2d w)
  then n1 <- getitem shape 0 ;;
       n2 <- getitem shape 0 ;;
       o <- np_ones (PyTuple [n1; n2]) ;;
       n3 <- getitem shape 0 ;;
       e <- np_eye n3 ;;
       d <- np_subtract o (PyNdarray e) ;;
       r <- np_multiply d w ;;
       Ok (PyNdarray r)
  else Ok w.

(** [SubWTALayerModel.__init__(proc)], lines 29-74. *)
Definition __init__ (p : process.WTALayer) : result SubWTALayerModel :=
  let proc_params := process.proc_params p in
  let shape := get proc_params "shape" (PyTuple [PyInt 1; PyInt 1]) in
  let inp_weights := get proc_params "inp_weights" (PyInt 1) in
  let exc_weights := get proc_params "exc_weights" (PyInt 5) in
  let inh_weights := get proc_params "inh_weights" (PyInt (-5)) in
  let du := get proc_params "du" (PyInt 4095) in
  let dv := get proc_params "dv" (PyInt 0) in
  let vth := get proc_params "vth" (PyInt 10) in
  let num_message_bits := get proc_params "num_message_bits" (PyInt 1) in
  inp_weights <- diagonal_weights shape inp_weights ;;
  exc_weights <- diagonal_weights shape exc_weights ;;
  inh_weights <- off_diagonal_weights shape inh_weights ;;
  dense <- Dense_new inp_weights (Some num_message_bits) ;;
  n <- getitem shape 0 ;;
  let lif := mk_LIF (PyTuple [n]) du dv vth in
  dense_exc <- Dense_new exc_weights None ;;
  dense_inh <- Dense_new inh_weights None ;;
  (* lines 58-64: the ports of the population have the shape of [lif] *)
  _ <- connect (in_shape (process.s_in p)) (Dense_s_in_shape dense) ;;
  _ <- connect (Dense_a_out_shape dense) (models.shape lif) ;;
  _ <- connect (models.shape lif) (out_shape (process.s_out p)) ;;
  _ <- connect (models.shape lif) (Dense_s_in_shape dense_exc) ;;
  _ <- connect (Dense_a_out_shape dense_exc) (models.shape lif) ;;
  _ <- connect (models.shape lif) (Dense_s_in_shape dense_inh) ;;
  _ <- connect (Dense_a_out_shape dense_inh) (models.shape lif) ;;
  (* lines 66-74: [u] and [v] of the population have the shape of [lif],
     its [du], [dv], [vth] the shape [(1,)] *)
  _ <- alias (var_shape (process.u p)) (models.shape lif) ;;
  _ <- alias (var_shape (process.v p)) (models.shape lif) ;;
  _ <- alias (var_shape (process.du p)) (PyTuple [PyInt 1]) ;;
  _ <- alias (var_shape (process.dv p)) (PyTuple [PyInt 1]) ;;
  _ <- alias (var_shape (process.vth p)) (PyTuple [PyInt 1]) ;;
  _ <- alias (var_shape (process.inp_weights p)) (Dense_weights_shape dense) ;;
  _ <- alias (var_shape (process.exc_weights p)) (Dense_weights_shape dense_exc) ;;
  _ <- alias (var_shape (process.inh_weights p)) (Dense_weights_shape dense_inh) ;;
  _ <- alias (var_shape (process.num_message_bits p)) (PyTuple [PyInt 1]) ;;
  Ok (mk_SubWTALayerModel dense lif dense_exc dense_inh
        [ ((proc, s_in), (self_dense, s_in));
          ((self_dense, a_out), (self_lif, a_in));
          ((self_lif, s_out), (proc, s_out));
          ((self_lif, s_out), (self_dense_exc, s_in));
          ((self_dense_exc, a_out), (self_lif, a_in));
          ((self_lif, s_out), (self_dense_inh, s_in));
          ((self_dense_inh, a_out), (self_lif, a_in)) ]
        [ ((proc, "u"), (self_lif, "u"));
          ((proc, "v"), (self_lif, "v"));
          ((proc, "du"), (self_lif, "du"));
          ((proc, "dv"), (self_lif, "dv"));
          ((proc, "vth"), (self_lif, "vth"));
          ((proc, "inp_weights"), (self_dense, "weights"));
          ((proc, "exc_weights"), (self_dense_exc, "weights"));
          ((proc, "inh_weights"), (self_dense_inh, "weights"));
          ((proc, "num_message_bits"), (self_dense, "num_message_bits")) ]).

End models.

(** ** Reading the results *)

(** The layer shape [(n_out, n_in)] as the tuple the caller passes. *)
Definition shape_tuple (n_out n_in : nat) : pyval :=
  PyTuple [PyInt (Z.of_nat n_out); PyInt (Z.of_nat n_in)].

(** [a[i, j]] of a 2-D array. *)
Definition item2 (a : ndarray) (i j : nat) : Z := item a [i; j].

(** The array [J - I] written out. *)
Definition J_minus_I (n : nat) : ndarray :=
  {| nd_shape := [n; n];
     nd_data := flat_map (fun i => map (fun j => if i =? j then 0%Z else 1%Z)
                                       (seq 0 n))
                         (seq 0 n) |}.

(** ** Errors at construction *)

(** Constructing the layer and then its model, as the framework does. *)
Definition build_layer (kwargs : gmap string pyval)
  : result (process.WTALayer * models.SubWTALayerModel) :=
  p <- process.__init__ kwargs ;;
  m <- models.__init__ p ;;
  Ok (p, m).




(** The option is a whole number that float64 holds exactly, given or
    left to its default. *)
Definition exact_scalar_or_omitted (kwargs : gmap string pyval) (key : string)
  : Prop :=
  kwargs !! key = None
  \/ exists w, kwargs !! key = Some (PyInt w) /\ exact_in_float64 w.


(** ** One timestep of the layer *)

(** Spike and current vectors. *)
Definition vec : Type := list Z.

Definition vadd (a b : vec) : vec := zip_with Z.add a b.

(** The sum of the vectors arriving at one port. *)
Definition vsum (vs : list vec) : vec :=
  match vs with
  | [] => []
  | a :: rest => fold_left vadd rest a
  end.

(** The matrix-vector product [W . s]. *)
Definition dot (W : ndarray) (s : vec) : vec :=
  map (fun i => fold_right Z.add 0%Z
                  (map (fun j => (item2 W i j * nth j s 0%Z)%Z)
                       (seq 0 (nth 1 (nd_shape W) 0))))
      (seq 0 (nth 0 (nd_shape W) 0)).

Definition as_matrix (w : pyval) : ndarray :=
  match w with
  | PyNdarray a => a
  | _ => {| nd_shape := [0; 0]; nd_data := [] |}
  end.

Definition as_int (x : pyval) : Z :=
  match x with
  | PyInt z => z
  | _ => 0%Z
  end.

Definition port_eqb (a b : models.member * models.port_name) : bool :=
  bool_decide (a = b).

(** The ports connected to the port [dst], in program order. *)
Definition sources (m : models.SubWTALayerModel) (dst : models.port)
  : list models.port :=
  map fst (filter (fun c => port_eqb (snd c) dst) (models.connections m)).

Definition dense_of (m : models.SubWTALayerModel) (x : models.member)
  : option models.Dense :=
  match x with
  | models.self_dense => Some (models.dense m)
  | models.self_dense_exc => Some (models.dense_exc m)
  | models.self_dense_inh => Some (models.dense_inh m)
  | _ => None
  end.

(** Modelled from the spec: the neuron population of section 4.3, which
    the source takes from the framework ([LIF]).  [decay] is the
    fixed-point leak, a neuron spikes when its voltage reaches the
    threshold, and the threshold is then subtracted from the voltage. *)
Definition decay (x d : Z) : Z := (x * (4096 - d) / 4096)%Z.

Definition lif_neuron (du dv vth : Z) (u v a : Z) : (Z * Z) * Z :=
  let u' := (decay u du + a)%Z in
  let v' := (decay v dv + u')%Z in
  if (vth <=? v')%Z then ((u', (v' - vth)%Z), 1%Z) else ((u', v'), 0%Z).

Definition lif_population (l : models.LIF) (uv : vec * vec) (a_in : vec)
  : (vec * vec) * vec :=
  let r := zip_with (fun '(u, v) a =>
                       lif_neuron (as_int (models.du l)) (as_int (models.dv l))
                                  (as_int (models.vth l)) u v a)
                    (combine (fst uv) (snd uv)) a_in in
  ((map (fun x => fst (fst x)) r, map (fun x => snd (fst x)) r), map snd r).

(** The state the layer keeps between two steps: the state of the
    population and the spikes it produced at the previous step. *)
Record layer_state := mk_layer_state { population : vec * vec; feedback : vec }.

Section Step.

(** The quantization of graded input spikes to a message width, which
    the specification names without defining it. *)
Variable quantize : pyval -> vec -> vec.

(** The dynamics of the neuron population: from the state [(u, v)] and
    the current [a_in] to the next state and the spikes [s_out]. *)
Variable neurons : models.LIF -> vec * vec -> vec -> (vec * vec) * vec.

(** Modelled from the spec: a synaptic pathway of section 4.2, which the
    source takes from the framework ([Dense]): the product of the
    weights with the spikes, the spikes being quantized first where the
    pathway was given a message width. *)
Definition propagate (d : models.Dense) (spikes : vec) : vec :=
  dot (as_matrix (models.weights d))
      (match models.num_message_bits d with
       | Some bits => quantize bits spikes
       | None => spikes
       end).

(** Modelled from the spec: what a spike source delivers during a step
    (section 4.4, items 1 and 5), the scheduling of the framework being
    absent from the source: the input port of the layer carries the
    input of this step, the spike output of the population carries the
    spikes retained from the previous step. *)
Definition delivered (st : layer_state) (s_in : vec) (src : models.port) : vec :=
  match src with
  | (models.proc, models.s_in) => s_in
  | (models.self_lif, models.s_out) => feedback st
  | _ => []
  end.

(** The current a port sends: a pathway sends the image of the spikes
    delivered to its input. *)
Definition current_of (m : models.SubWTALayerModel) (st : layer_state)
    (s_in : vec) (src : models.port) : vec :=
  match dense_of m (fst src), snd src with
  | Some d, models.a_out =>
      propagate d (vsum (map (delivered st s_in)
                             (sources m (fst src, models.s_in))))
  | _, _ => []
  end.

(** The current [a_in] the population receives: the sum over the ports
    wired to it (section 4.4, item 4). *)
Definition a_in_of (m : models.SubWTALayerModel) (st : layer_state) (s_in : vec)
  : vec :=
  vsum (map (current_of m st s_in) (sources m (models.self_lif, models.a_in))).

(** Modelled from the spec: one timestep of the layer (section 4.4): the
    population advances with [a_in], and its spikes are emitted and
    retained for the next step. *)
Definition step (m : models.SubWTALayerModel) (st : layer_state) (s_in : vec)
  : layer_state * (vec * vec) :=
  let a_in := a_in_of m st s_in in
  let '(uv, s_out) := neurons (models.lif m) (population st) a_in in
  (mk_layer_state uv s_out, (a_in, s_out)).

(** The pairs [(a_in[t], s_out[t])] of a run over the inputs [s_in[0]],
    [s_in[1]], ... *)
Fixpoint run (m : models.SubWTALayerModel) (st : layer_state)
    (inputs : list vec) : list (vec * vec) :=
  match inputs with
  | [] => []
  | s_in :: rest =>
      let '(st', out) := step m st s_in in out :: run m st' rest
  end.

End Step.

(** ** Induction on values *)

(** Induction on values, through the sequences they nest. *)
Fixpoint pyval_nested_ind (P : pyval -> Prop)
    (Hint : forall z, P (PyInt z))
    (Htuple : forall xs, List.Forall P xs -> P (PyTuple xs))
    (Hlist : forall xs, List.Forall P xs -> P (PyList xs))
    (Harr : forall a, P (PyNdarray a)) (v : pyval) : P v :=
  let all :=
    fix all (l : list pyval) : List.Forall P l :=
      match l with
      | [] => @List.Forall_nil _ P
      | x :: l' =>
          @List.Forall_cons _ P x l'
            (pyval_nested_ind P Hint Htuple Hlist Harr x) (all l')
      end in
  match v with
  | PyInt z => Hint z
  | PyNdarray a => Harr a
  | PyTuple xs => Htuple xs (all xs)
  | PyList xs => Hlist xs (all xs)
  end.

(** ** Sample configurations *)

Definition kwargs_scalar : gmap string pyval :=
  {[ "shape" := shape_tuple 3 3; "inp_weights" := PyInt 2;
     "exc_weights" := PyInt 5; "inh_weights" := PyInt (-5) ]}.



Definition nested_2x2 : pyval :=
  PyList [PyList [PyInt 1; PyInt 2]; PyList [PyInt 3; PyInt 4]].

Definition kwargs_shape_only : gmap string pyval := {[ "shape" := shape_tuple 2 2 ]}.

Definition kwargs_2x3 : gmap string pyval :=
  {[ "shape" := shape_tuple 2 3; "inp_weights" := PyInt 1 ]}.

Definition kwargs_graded : gmap string pyval :=
  {[ "shape" := shape_tuple 2 2; "num_message_bits" := PyInt 8 ]}.




Definition kwargs_wta : gmap string pyval :=
  {[ "shape" := shape_tuple 3 3; "inp_weights" := PyInt 4; "du" := PyInt 0 ]}.

Definition no_quantize : pyval -> vec -> vec := fun _ s => s.

Definition rest_state : layer_state :=
  mk_layer_state ([0; 0; 0]%Z, [0; 0; 0]%Z) [0; 0; 0]%Z.

Definition inputs_wta : list vec := [[1; 0; 0]; [1; 1; 0]; [1; 0; 0]]%Z.

(** ** Documented forms of a weight option *)

(** The forms the docstring of the layer allows for a weight of a layer
    with [n] neurons: a single value, a 1-D sequence or array of [n]
    values, or a 2-D array; here with whole values that float64 holds
    exactly, and with 2-D arrays of the size of the layer. *)
Definition documented_weight (n : nat) (w : pyval) : Prop :=
  (exists x, exact_in_float64 x /\ w = PyInt x)
  \/ (exists ws, length ws = n /\ Forall exact_in_float64 ws
                 /\ (w = PyTuple (map PyInt ws) \/ w = PyList (map PyInt ws)
                     \/ w = PyNdarray {| nd_shape := [length ws]; nd_data := ws |}))
  \/ (exists a, nd_shape a = [n; n] /\ w = PyNdarray a).

(** The option is left out or has a documented form. *)
Definition documented_option (kwargs : gmap string pyval) (key : string) (n : nat)
  : Prop :=
  match kwargs !! key with
  | None => True
  | Some w => documented_weight n w
  end.

(** ** Further sample configurations *)

Definition kwargs_short_shape : gmap string pyval := {[ "shape" := PyTuple [PyInt 3] ]}.

Definition kwargs_int_shape : gmap string pyval := {[ "shape" := PyInt 3 ]}.

Definition kwargs_list_shape : gmap string pyval :=
  {[ "shape" := PyList [PyInt 2; PyInt 2] ]}.

Definition kwargs_long_shape : gmap string pyval :=
  {[ "shape" := PyTuple [PyInt 2; PyInt 2; PyInt 7] ]}.

Definition kwargs_bad_length : gmap string pyval :=
  {[ "shape" := shape_tuple 3 3; "inp_weights" := PyTuple [PyInt 1; PyInt 2] ]}.

Definition kwargs_vectors : gmap string pyval :=
  {[ "shape" := shape_tuple 3 3;
     "inp_weights" := PyTuple [PyInt 1; PyInt 2; PyInt 3];
     "exc_weights" := PyNdarray {| nd_shape := [3]; nd_data := [4; 5; 6]%Z |};
     "inh_weights" := PyList [PyInt (-1); PyInt (-2); PyInt (-3)] ]}.

Definition kwargs_no_shape : gmap string pyval :=
  {[ "exc_weights" := PyInt 6; "inh_weights" := PyInt (-9) ]}.

(** * Properties *)

(** Splits a conjunction whose leading parts are at hand. *)
Ltac conjuncts := repeat (split; [first [assumption | reflexivity]|]).

(** ** numpy at work *)

Example eye_3 : nd_data (eye 3) = [1; 0; 0; 0; 1; 0; 0; 0; 1]%Z.
Proof. reflexivity. Qed.

Example eye_times_list :
  np_multiply (eye 2) (PyTuple [PyInt 7; PyInt 9])
  = Ok {| nd_shape := [2; 2]; nd_data := [7; 0; 0; 9]%Z |}.
Proof. reflexivity. Qed.

Example eye_times_ragged :
  np_multiply (eye 2) (PyTuple [PyTuple [PyInt 1; PyInt 2]; PyTuple [PyInt 3]])
  = Raise ValueError.
Proof. reflexivity. Qed.

Example float64_rounds :
  float64_of_int (2 ^ 53 + 1) = Ok (2 ^ 53)%Z
  /\ float64_of_int (2 ^ 53 + 3) = Ok (2 ^ 53 + 4)%Z
  /\ float64_of_int (- (2 ^ 53 + 1)) = Ok (- 2 ^ 53)%Z
  /\ float64_of_int (2 ^ 1024 - 2 ^ 970 - 1) = Ok (2 ^ 1024 - 2 ^ 971)%Z
  /\ float64_of_int (2 ^ 1024 - 2 ^ 970) = Raise OverflowError.
Proof. repeat split; vm_compute; reflexivity. Qed.

Example eye_times_large :
  np_multiply (eye 2) (PyInt (2 ^ 53 + 1))
  = Ok {| nd_shape := [2; 2]; nd_data := [2 ^ 53; 0; 0; 2 ^ 53]%Z |}
  /\ np_multiply (eye 2) (PyList [PyInt 1; PyInt (2 ^ 1024)]) = Raise OverflowError
  /\ np_multiply (eye 2) (PyList [PyInt 1; PyInt 2; PyInt (2 ^ 1024)])
     = Raise ValueError.
Proof. repeat split; vm_compute; reflexivity. Qed.

Example shapes_compared :
  connect (PyTuple [PyInt 3]) (PyTuple [PyInt 2]) = Raise AssertionError
  /\ alias (PyTuple [PyInt 2; PyInt 3]) (shape_of (eye 2)) = Raise AssertionError
  /\ alias (PyTuple [PyInt 2; PyInt 2]) (shape_of (eye 2)) = Ok tt
  /\ alias (PyTuple [PyInt 2; PyInt 2; PyInt 7]) (shape_of (eye 2))
     = Raise AssertionError
  /\ Var_new (PyList [PyInt 2; PyInt 2]) (PyInt 0) = Raise AssertionError.
Proof. repeat split. Qed.

Example eye1_times_list :
  np_multiply (eye 1) (PyTuple [PyInt 7; PyInt 9; PyInt 4])
  = Ok {| nd_shape := [1; 3]; nd_data := [7; 9; 4]%Z |}.
Proof. reflexivity. Qed.

(** ** Row-major grids *)

Section Grid.
Context {A : Type}.

Lemma length_grid (f : nat -> nat -> A) (n a m : nat) :
  length (flat_map (fun i => map (f i) (seq 0 n)) (seq a m)) = m * n.
Proof.
  revert a. induction m as [|m IH]; intros a; simpl; [reflexivity|].
  rewrite length_app, length_map, length_seq, IH. reflexivity.
Qed.

Lemma nth_grid_from (f : nat -> nat -> A) (n a m i j : nat) (d : A) :
  i < m -> j < n ->
  nth (i * n + j) (flat_map (fun i => map (f i) (seq 0 n)) (seq a m)) d
  = f (a + i) j.
Proof.
  revert a i. induction m as [|m IH]; intros a i Hi Hj; [lia|].
  simpl. destruct i as [|i].
  - rewrite app_nth1 by (rewrite length_map, length_seq; lia).
    simpl. rewrite (nth_indep _ d (f a 0))
      by (rewrite length_map, length_seq; lia).
    rewrite map_nth, seq_nth by lia. f_equal; lia.
  - rewrite app_nth2 by (rewrite length_map, length_seq; lia).
    rewrite length_map, length_seq.
    replace (S i * n + j - n) with (i * n + j) by lia.
    rewrite IH by lia. f_equal; lia.
Qed.

Lemma nth_grid (f : nat -> nat -> A) (n m i j : nat) (d : A) :
  i < m -> j < n ->
  nth (i * n + j) (flat_map (fun i => map (f i) (seq 0 n)) (seq 0 m)) d
  = f i j.
Proof. intros Hi Hj. now rewrite nth_grid_from. Qed.

Lemma map_grid {B} (g : A -> B) (f : nat -> nat -> A) (n a m : nat) :
  map g (flat_map (fun i => map (f i) (seq 0 n)) (seq a m))
  = flat_map (fun i => map (fun j => g (f i j)) (seq 0 n)) (seq a m).
Proof.
  revert a. induction m as [|m IH]; intros a; simpl; [reflexivity|].
  rewrite map_app, map_map, IH. reflexivity.
Qed.
End Grid.

Lemma ndindex_1d (n : nat) : ndindex [n] = map (fun j => [j]) (seq 0 n).
Proof.
  unfold ndindex. generalize 0 as a.
  induction n as [|n IH]; intros a; simpl; [reflexivity|].
  now rewrite IH.
Qed.

Lemma ndindex_2d (m n : nat) :
  ndindex [m; n] = flat_map (fun i => map (fun j => [i; j]) (seq 0 n)) (seq 0 m).
Proof.
  change (ndindex [m; n])
    with (flat_map (fun i => map (cons i) (ndindex [n])) (seq 0 m)).
  rewrite ndindex_1d. apply flat_map_ext. intros i. now rewrite map_map.
Qed.

Lemma ravel_2d (m n i j : nat) : ravel [m; n] [i; j] = i * n + j.
Proof. simpl. lia. Qed.

(** ** Entries of the arrays numpy builds *)

Lemma item2_eye (n i j : nat) :
  i < n -> j < n -> item2 (eye n) i j = if i =? j then 1%Z else 0%Z.
Proof.
  intros Hi Hj. unfold item2, item. cbn [nd_shape nd_data eye].
  rewrite ravel_2d. now rewrite nth_grid.
Qed.

Lemma item2_full (m n : nat) (x : Z) (i j : nat) :
  i < m -> j < n -> item2 (full [m; n] x) i j = x.
Proof.
  intros Hi Hj. unfold item2, item. cbn [nd_shape nd_data full].
  rewrite ravel_2d. apply nth_repeat_lt. simpl. nia.
Qed.

Lemma broadcast_shapes_same_2d (m n : nat) :
  broadcast_shapes [m; n] [m; n] = Some [m; n].
Proof. unfold broadcast_shapes. simpl. now rewrite !Nat.eqb_refl. Qed.

Lemma broadcast_shapes_scalar (s : list nat) : broadcast_shapes s [] = Some s.
Proof.
  unfold broadcast_shapes. simpl.
  destruct (rev s) eqn:E;
    apply (f_equal (@rev nat)) in E; rewrite rev_involutive in E;
    now subst.
Qed.

Lemma broadcast_shapes_row (n : nat) : broadcast_shapes [n; n] [n] = Some [n; n].
Proof. unfold broadcast_shapes. simpl. now rewrite Nat.eqb_refl. Qed.

(** ** Whole numbers in float64 *)

Lemma float64_of_int_exact (z : Z) :
  exact_in_float64 z -> float64_of_int z = Ok z.
Proof.
  unfold exact_in_float64, float64_of_int. intros Hz.
  assert (Hn : nearest_float64 (Z.abs z) = Z.abs z).
  { unfold nearest_float64.
    destruct (Z.eq_dec (Z.abs z) (2 ^ 53)) as [E|E]; [rewrite E; reflexivity|].
    destruct (Z.eq_dec (Z.abs z) 0) as [E0|E0]; [rewrite E0; reflexivity|].
    assert (Z.log2 (Z.abs z) < 53)%Z by (apply Z.log2_lt_pow2; lia).
    destruct (Z.leb_spec (Z.log2 (Z.abs z) - 52) 0); [reflexivity | lia]. }
  rewrite Hn. replace (Z.sgn z * Z.abs z)%Z with z by (destruct z; simpl; lia).
  assert (H53 : (2 ^ 53 < 2 ^ 1024)%Z) by reflexivity.
  destruct (Z.leb_spec (2 ^ 1024) (Z.abs z)); [lia | reflexivity].
Qed.

Lemma sequence_float64_exact (l : list Z) :
  Forall exact_in_float64 l -> sequence (map float64_of_int l) = Ok l.
Proof.
  induction 1 as [|z l Hz _ IH]; cbn [map sequence]; [reflexivity|].
  now rewrite (float64_of_int_exact z Hz), IH.
Qed.

Lemma exact_in_float64_bit (b : bool) :
  exact_in_float64 (if b then 1 else 0) /\ exact_in_float64 (if b then 0 else 1).
Proof. unfold exact_in_float64. destruct b; split; apply Z.leb_le; reflexivity. Qed.

Lemma eye_exact (n : nat) : Forall exact_in_float64 (nd_data (eye n)).
Proof.
  apply List.Forall_forall. intros x Hx. cbn [eye nd_data] in Hx.
  apply in_flat_map in Hx as (i & _ & Hx). apply in_map_iff in Hx as (j & <- & _).
  apply exact_in_float64_bit.
Qed.

(** The result of an elementwise operation whose result is [m] by [n],
    [fb] being the float64 entries of the right operand. *)
Lemma elementwise_2d (op : Z -> Z -> Z) (a b : ndarray) (m n : nat) (fb : list Z) :
  nd_shape a = [m; n] ->
  broadcast_shapes [m; n] (nd_shape b) = Some [m; n] ->
  sequence (map float64_of_int (nd_data b)) = Ok fb ->
  exists r, elementwise op a b = Ok r /\ nd_shape r = [m; n]
    /\ length (nd_data r) = m * n
    /\ forall i j, i < m -> j < n ->
         item2 r i j
         = op (item2 a i j)
              (item {| nd_shape := nd_shape b; nd_data := fb |}
                    (broadcast_index (nd_shape b) [i; j])).
Proof.
  intros Ha Hb Hfb. unfold elementwise. rewrite Ha, Hb, Hfb. cbn [bind].
  eexists. split; [reflexivity|]. cbn [nd_shape nd_data].
  split; [reflexivity|]. rewrite ndindex_2d, map_grid.
  split; [apply length_grid|].
  intros i j Hi Hj. unfold item2 at 1. unfold item at 1.
  cbn [nd_shape nd_data]. rewrite ravel_2d, nth_grid by assumption.
  f_equal. unfold item2. f_equal. unfold broadcast_index. simpl.
  destruct (m =? 1) eqn:Em; destruct (n =? 1) eqn:En;
    rewrite ?Nat.eqb_eq in *; repeat f_equal; lia.
Qed.

(** The same when the entries of the right operand are exact in float64. *)
Lemma elementwise_2d_exact (op : Z -> Z -> Z) (a b : ndarray) (m n : nat) :
  nd_shape a = [m; n] ->
  broadcast_shapes [m; n] (nd_shape b) = Some [m; n] ->
  Forall exact_in_float64 (nd_data b) ->
  exists r, elementwise op a b = Ok r /\ nd_shape r = [m; n]
    /\ length (nd_data r) = m * n
    /\ forall i j, i < m -> j < n ->
         item2 r i j
         = op (item2 a i j) (item b (broadcast_index (nd_shape b) [i; j])).
Proof.
  intros Ha Hb Hex.
  destruct (elementwise_2d op a b m n _ Ha Hb (sequence_float64_exact _ Hex))
    as (r & Hr & Hs & Hl & He).
  exists r. conjuncts. intros i j Hi Hj. rewrite He by assumption.
  now destruct b.
Qed.

Lemma broadcast_index_2d (m n i j : nat) :
  i < m -> j < n -> broadcast_index [m; n] [i; j] = [i; j].
Proof.
  intros Hi Hj. unfold broadcast_index. simpl.
  destruct (m =? 1) eqn:Em; destruct (n =? 1) eqn:En;
    rewrite ?Nat.eqb_eq in *; repeat f_equal; lia.
Qed.

Lemma broadcast_index_row (n i j : nat) :
  j < n -> broadcast_index [n] [i; j] = [j].
Proof.
  intros Hj. unfold broadcast_index. simpl.
  destruct (n =? 1) eqn:En; rewrite ?Nat.eqb_eq in *; repeat f_equal; lia.
Qed.

(** [a * w] for a number [w]. *)
Lemma np_multiply_scalar (a : ndarray) (m n : nat) (w : Z) :
  nd_shape a = [m; n] -> exact_in_float64 w ->
  exists r, np_multiply a (PyInt w) = Ok r /\ nd_shape r = [m; n]
    /\ length (nd_data r) = m * n
    /\ forall i j, i < m -> j < n -> item2 r i j = (item2 a i j * w)%Z.
Proof.
  intros Ha Hw. unfold np_multiply. cbn [np_asarray bind].
  destruct (elementwise_2d_exact Z.mul a {| nd_shape := []; nd_data := [w] |} m n Ha
              (broadcast_shapes_scalar _)) as (r & Hr & Hs & Hl & He).
  { repeat constructor. exact Hw. }
  exists r. conjuncts.
  intros i j Hi Hj. now rewrite He.
Qed.

(** [a * w] for an array [w] holding one weight per column. *)
Lemma np_multiply_row (a : ndarray) (n : nat) (w : pyval) (ws : list Z) :
  nd_shape a = [n; n] ->
  np_asarray w = Ok {| nd_shape := [n]; nd_data := ws |} ->
  Forall exact_in_float64 ws ->
  exists r, np_multiply a w = Ok r /\ nd_shape r = [n; n]
    /\ length (nd_data r) = n * n
    /\ forall i j, i < n -> j < n -> item2 r i j = (item2 a i j * nth j ws 0)%Z.
Proof.
  intros Ha Hw Hex. unfold np_multiply. rewrite Hw. cbn [bind].
  destruct (elementwise_2d_exact Z.mul a {| nd_shape := [n]; nd_data := ws |} n n Ha
              (broadcast_shapes_row n) Hex) as (r & Hr & Hs & Hl & He).
  exists r. conjuncts.
  intros i j Hi Hj. rewrite He by assumption. cbn [nd_shape].
  rewrite broadcast_index_row by assumption.
  unfold item. simpl. do 2 f_equal. lia.
Qed.

(** [a * w] and [a - w] for an array [w] of the shape of [a]. *)
Lemma elementwise_same_2d (op : Z -> Z -> Z) (a b : ndarray) (m n : nat) :
  nd_shape a = [m; n] -> nd_shape b = [m; n] ->
  Forall exact_in_float64 (nd_data b) ->
  exists r, elementwise op a b = Ok r /\ nd_shape r = [m; n]
    /\ length (nd_data r) = m * n
    /\ forall i j, i < m -> j < n -> item2 r i j = op (item2 a i j) (item2 b i j).
Proof.
  intros Ha Hb Hex.
  destruct (elementwise_2d_exact op a b m n Ha) as (r & Hr & Hs & Hl & He);
    [rewrite Hb; apply broadcast_shapes_same_2d | exact Hex |].
  exists r. conjuncts.
  intros i j Hi Hj. rewrite He, Hb by assumption.
  now rewrite broadcast_index_2d.
Qed.

Lemma as_dim_of_nat (n : nat) : as_dim (PyInt (Z.of_nat n)) = Ok n.
Proof.
  simpl. destruct (Z.ltb_spec (Z.of_nat n) 0); [lia|].
  now rewrite Nat2Z.id.
Qed.

Lemma np_eye_of_nat (n : nat) : np_eye (PyInt (Z.of_nat n)) = Ok (eye n).
Proof. unfold np_eye. now rewrite as_dim_of_nat. Qed.

Lemma np_ones_square (n : nat) :
  np_ones (PyTuple [PyInt (Z.of_nat n); PyInt (Z.of_nat n)]) = Ok (full [n; n] 1%Z).
Proof.
  unfold np_ones, as_shape. cbn [map sequence].
  now rewrite as_dim_of_nat.
Qed.

(** A list of numbers is a 1-D array. *)
Lemma sequence_asarray_ints (ws : list Z) :
  sequence (map np_asarray (map PyInt ws))
  = Ok (map (fun z => {| nd_shape := []; nd_data := [z] |}) ws).
Proof.
  induction ws as [|z ws IH]; [reflexivity|].
  cbn [map sequence]. rewrite IH. reflexivity.
Qed.

Lemma np_asarray_ints (ws : list Z) :
  np_asarray (PyTuple (map PyInt ws))
  = Ok {| nd_shape := [length ws]; nd_data := ws |}.
Proof.
  cbn [np_asarray]. rewrite sequence_asarray_ints. cbn [bind].
  destruct ws as [|z ws]; [reflexivity|].
  unfold stack. cbn [map].
  replace (forallb _ _) with true.
  - cbn [nd_shape nd_data length]. rewrite length_map, map_map. cbn [nd_data].
    assert (E : forall l : list Z, concat (map (fun x => [x]) l) = l).
    { induction l as [|y l IH]; [reflexivity|]. simpl. now rewrite IH. }
    simpl. now rewrite E.
  - symmetry. apply forallb_forall. intros b Hb.
    apply bool_decide_eq_true.
    destruct Hb as [<-|Hb]; [reflexivity|].
    apply in_map_iff in Hb. destruct Hb as (y & <- & _). reflexivity.
Qed.

(** A list and a tuple stand for the same array. *)
Lemma np_asarray_list (xs : list pyval) :
  np_asarray (PyList xs) = np_asarray (PyTuple xs).
Proof. reflexivity. Qed.

(** The diagonal expansion, entry by entry. *)
Lemma diagonal_scalar (n n_in : nat) (w : Z) :
  exact_in_float64 w ->
  exists M, models.diagonal_weights (shape_tuple n n_in) (PyInt w) = Ok (PyNdarray M)
    /\ nd_shape M = [n; n] /\ length (nd_data M) = n * n
    /\ forall i j, i < n -> j < n -> item2 M i j = if i =? j then w else 0%Z.
Proof.
  intros Hw.
  unfold models.diagonal_weights. cbn [is_ndarray_2d negb shape_tuple getitem nth_error bind].
  rewrite np_eye_of_nat. cbn [bind].
  destruct (np_multiply_scalar (eye n) n n w eq_refl Hw) as (M & HM & Hs & Hl & He).
  rewrite HM. exists M. conjuncts.
  intros i j Hi Hj. rewrite He, item2_eye by assumption.
  destruct (i =? j); lia.
Qed.

Lemma diagonal_row (n n_in : nat) (w : pyval) (ws : list Z) :
  is_ndarray_2d w = false ->
  np_asarray w = Ok {| nd_shape := [n]; nd_data := ws |} ->
  Forall exact_in_float64 ws ->
  exists M, models.diagonal_weights (shape_tuple n n_in) w = Ok (PyNdarray M)
    /\ nd_shape M = [n; n] /\ length (nd_data M) = n * n
    /\ forall i j, i < n -> j < n -> item2 M i j = if i =? j then nth i ws 0%Z else 0%Z.
Proof.
  intros H2 Hw Hex. unfold models.diagonal_weights. rewrite H2.
  cbn [negb shape_tuple getitem nth_error bind].
  rewrite np_eye_of_nat. cbn [bind].
  destruct (np_multiply_row (eye n) n w ws eq_refl Hw Hex) as (M & HM & Hs & Hl & He).
  rewrite HM. exists M. conjuncts.
  intros i j Hi Hj. rewrite He, item2_eye by assumption.
  destruct (Nat.eqb_spec i j); [subst; lia | lia].
Qed.

(** The array [J - I]. *)
Lemma ones_minus_eye (n : nat) :
  exists D, np_subtract (full [n; n] 1%Z) (PyNdarray (eye n)) = Ok D
    /\ nd_shape D = [n; n]
    /\ forall i j, i < n -> j < n -> item2 D i j = if i =? j then 0%Z else 1%Z.
Proof.
  unfold np_subtract. cbn [np_asarray bind].
  destruct (elementwise_same_2d Z.sub (full [n; n] 1%Z) (eye n) n n eq_refl eq_refl
              (eye_exact n)) as (D & HD & Hs & _ & He).
  exists D. conjuncts.
  intros i j Hi Hj. rewrite He, item2_full, item2_eye by assumption.
  now destruct (i =? j).
Qed.

(** The zero-diagonal expansion, entry by entry. *)
Lemma off_diagonal_scalar (n n_in : nat) (w : Z) :
  exact_in_float64 w ->
  exists M, models.off_diagonal_weights (shape_tuple n n_in) (PyInt w) = Ok (PyNdarray M)
    /\ nd_shape M = [n; n] /\ length (nd_data M) = n * n
    /\ forall i j, i < n -> j < n -> item2 M i j = if i =? j then 0%Z else w.
Proof.
  intros Hw. unfold models.off_diagonal_weights.
  cbn [is_ndarray_2d negb shape_tuple getitem nth_error bind].
  rewrite np_ones_square. cbn [bind]. rewrite np_eye_of_nat. cbn [bind].
  destruct (ones_minus_eye n) as (D & HD & HDs & HDe). rewrite HD. cbn [bind].
  destruct (np_multiply_scalar D n n w HDs Hw) as (M & HM & Hs & Hl & He).
  rewrite HM. exists M. conjuncts.
  intros i j Hi Hj. rewrite He, HDe by assumption.
  destruct (i =? j); lia.
Qed.

(** ** What the model constructor does with its results *)

Lemma bind_Ok {A B} (c : result A) (k : A -> result B) (b : B) :
  bind c k = Ok b -> exists a, c = Ok a /\ k a = Ok b.
Proof. destruct c as [a|e]; simpl; [eauto | discriminate]. Qed.

(** *** The checks of the framework *)

Lemma Var_new_Ok (shape init : pyval) (x : Var) :
  Var_new shape init = Ok x -> x = mk_Var shape init /\ is_tuple shape = true.
Proof. unfold Var_new. destruct (is_tuple shape); [|discriminate]. now intros [= <-]. Qed.

Lemma InPort_new_Ok (shape : pyval) (x : InPort) :
  InPort_new shape = Ok x -> x = mk_InPort shape.
Proof. unfold InPort_new. destruct (is_tuple shape); [|discriminate]. now intros [= <-]. Qed.

Lemma OutPort_new_Ok (shape : pyval) (x : OutPort) :
  OutPort_new shape = Ok x -> x = mk_OutPort shape.
Proof. unfold OutPort_new. destruct (is_tuple shape); [|discriminate]. now intros [= <-]. Qed.

Lemma Dense_new_Ok (w : pyval) (b : option pyval) (d : models.Dense) :
  models.Dense_new w b = Ok d ->
  d = models.mk_Dense w b /\ exists a, w = PyNdarray a /\ ndim a = 2.
Proof.
  unfold models.Dense_new. intros H. apply bind_Ok in H as (a & Ha & H).
  destruct (Nat.eqb_spec (ndim a) 2) as [E|E]; [|discriminate].
  destruct w as [z|xs|xs|c]; try discriminate.
  injection H as <-. injection Ha as ->. eauto.
Qed.

Lemma Dense_new_2d (a : ndarray) (b : option pyval) :
  ndim a = 2 ->
  models.Dense_new (PyNdarray a) b = Ok (models.mk_Dense (PyNdarray a) b).
Proof. unfold models.Dense_new. cbn [np_asarray bind]. now intros ->. Qed.

Lemma py_eq_tuple (xs ys : list pyval) :
  py_eq (PyTuple xs) (PyTuple ys) = py_eq_all xs ys.
Proof. reflexivity. Qed.

Lemma py_eq_all_refl (xs : list pyval) :
  List.Forall (fun x => py_eq x x = Ok true) xs -> py_eq_all xs xs = Ok true.
Proof.
  induction 1 as [|x xs Hx _ IH]; [reflexivity|].
  change (py_eq_all (x :: xs) (x :: xs))
    with (c <- py_eq x x ;; if c : bool then py_eq_all xs xs else Ok false).
  now rewrite Hx.
Qed.

(** A value equals itself. *)
Lemma py_eq_refl (v : pyval) : py_eq v v = Ok true.
Proof.
  induction v as [z|xs IH|xs IH|a] using pyval_nested_ind.
  - cbn. now rewrite Z.eqb_refl.
  - rewrite py_eq_tuple. now apply py_eq_all_refl.
  - change (py_eq (PyList xs) (PyList xs))
      with (if length xs =? length xs then py_eq_all xs xs else Ok false).
    rewrite Nat.eqb_refl. now apply py_eq_all_refl.
  - cbn. now rewrite bool_decide_eq_true_2.
Qed.

Lemma connect_refl (x : pyval) : connect x x = Ok tt.
Proof. unfold connect. now rewrite py_eq_refl. Qed.

Lemma alias_refl (x : pyval) : alias x x = Ok tt.
Proof. unfold alias. now rewrite py_eq_refl. Qed.

(** Two connected ports of one dimension have the same width. *)
Lemma connect_widths (a b : Z) (u : unit) :
  connect (PyTuple [PyInt a]) (PyTuple [PyInt b]) = Ok u -> a = b.
Proof.
  unfold connect. cbn. destruct (Z.eqb_spec a b); [auto | discriminate].
Qed.

Lemma connect_widths_differ (a b : Z) :
  a <> b -> connect (PyTuple [PyInt a]) (PyTuple [PyInt b]) = Raise AssertionError.
Proof.
  intros H. unfold connect. cbn. destruct (Z.eqb_spec a b); [contradiction | reflexivity].
Qed.

(** A variable of shape [(r, c)] is aliased to the weights of a [Dense]
    process only if they are [r] by [c]. *)
Lemma alias_shape_of (r c : Z) (W : ndarray) (u : unit) :
  alias (PyTuple [PyInt r; PyInt c]) (shape_of W) = Ok u ->
  map Z.of_nat (nd_shape W) = [r; c].
Proof.
  unfold alias, shape_of. destruct (nd_shape W) as [|x [|y [|z s]]]; cbn;
    repeat match goal with
           | |- context [(?a =? ?b)%Z] => destruct (Z.eqb_spec a b); cbn
           end; try discriminate.
  intros _. congruence.
Qed.

(** *** The steps of the model constructor *)

(** Every call of a model that is built has returned. *)
Lemma init_steps (p : process.WTALayer) (m : models.SubWTALayerModel) :
  models.__init__ p = Ok m ->
  let params := process.proc_params p in
  let shape := get params "shape" (PyTuple [PyInt 1; PyInt 1]) in
  exists wi wx wh n,
    models.diagonal_weights shape (get params "inp_weights" (PyInt 1)) = Ok wi
    /\ models.diagonal_weights shape (get params "exc_weights" (PyInt 5)) = Ok wx
    /\ models.off_diagonal_weights shape (get params "inh_weights" (PyInt (-5))) = Ok wh
    /\ getitem shape 0 = Ok n
    /\ models.Dense_new wi (Some (get params "num_message_bits" (PyInt 1)))
       = Ok (models.dense m)
    /\ models.Dense_new wx None = Ok (models.dense_exc m)
    /\ models.Dense_new wh None = Ok (models.dense_inh m)
    /\ models.lif m
       = models.mk_LIF (PyTuple [n]) (get params "du" (PyInt 4095))
           (get params "dv" (PyInt 0)) (get params "vth" (PyInt 10))
    /\ models.connections m =
       [ ((models.proc, models.s_in), (models.self_dense, models.s_in));
         ((models.self_dense, models.a_out), (models.self_lif, models.a_in));
         ((models.self_lif, models.s_out), (models.proc, models.s_out));
         ((models.self_lif, models.s_out), (models.self_dense_exc, models.s_in));
         ((models.self_dense_exc, models.a_out), (models.self_lif, models.a_in));
         ((models.self_lif, models.s_out), (models.self_dense_inh, models.s_in));
         ((models.self_dense_inh, models.a_out), (models.self_lif, models.a_in)) ]
    /\ connect (in_shape (process.s_in p)) (models.Dense_s_in_shape (models.dense m))
       = Ok tt
    /\ connect (models.Dense_a_out_shape (models.dense m)) (PyTuple [n]) = Ok tt
    /\ connect (PyTuple [n]) (models.Dense_s_in_shape (models.dense_exc m)) = Ok tt
    /\ connect (models.Dense_a_out_shape (models.dense_exc m)) (PyTuple [n]) = Ok tt
    /\ connect (PyTuple [n]) (models.Dense_s_in_shape (models.dense_inh m)) = Ok tt
    /\ connect (models.Dense_a_out_shape (models.dense_inh m)) (PyTuple [n]) = Ok tt
    /\ alias (var_shape (process.inp_weights p))
             (models.Dense_weights_shape (models.dense m)) = Ok tt
    /\ alias (var_shape (process.exc_weights p))
             (models.Dense_weights_shape (models.dense_exc m)) = Ok tt
    /\ alias (var_shape (process.inh_weights p))
             (models.Dense_weights_shape (models.dense_inh m)) = Ok tt.
Proof.
  unfold models.__init__. intros H.
  apply bind_Ok in H as (wi & Hi & H).
  apply bind_Ok in H as (wx & Hx & H).
  apply bind_Ok in H as (wh & Hh & H).
  apply bind_Ok in H as (d & Hd & H).
  apply bind_Ok in H as (n & Hn & H).
  apply bind_Ok in H as (dx & Hdx & H).
  apply bind_Ok in H as (dh & Hdh & H).
  cbn [models.shape] in H.
  apply bind_Ok in H as ([] & C1 & H).
  apply bind_Ok in H as ([] & C2 & H).
  apply bind_Ok in H as ([] & C3 & H).
  apply bind_Ok in H as ([] & C4 & H).
  apply bind_Ok in H as ([] & C5 & H).
  apply bind_Ok in H as ([] & C6 & H).
  apply bind_Ok in H as ([] & C7 & H).
  apply bind_Ok in H as ([] & A1 & H).
  apply bind_Ok in H as ([] & A2 & H).
  apply bind_Ok in H as ([] & A3 & H).
  apply bind_Ok in H as ([] & A4 & H).
  apply bind_Ok in H as ([] & A5 & H).
  apply bind_Ok in H as ([] & A6 & H).
  apply bind_Ok in H as ([] & A7 & H).
  apply bind_Ok in H as ([] & A8 & H).
  apply bind_Ok in H as ([] & A9 & H).
  injection H as <-. exists wi, wx, wh, n.
  cbn [models.dense models.dense_exc models.dense_inh models.lif models.connections].
  repeat split; assumption.
Qed.

(** The three [Dense] processes hold what the weight expansions return,
    the input one is given the message width, the other two are not, and
    the wiring is the same for every layer. *)
Lemma init_inversion (p : process.WTALayer) (m : models.SubWTALayerModel) :
  models.__init__ p = Ok m ->
  let params := process.proc_params p in
  let shape := get params "shape" (PyTuple [PyInt 1; PyInt 1]) in
  models.diagonal_weights shape (get params "inp_weights" (PyInt 1))
    = Ok (models.weights (models.dense m))
  /\ models.diagonal_weights shape (get params "exc_weights" (PyInt 5))
    = Ok (models.weights (models.dense_exc m))
  /\ models.off_diagonal_weights shape (get params "inh_weights" (PyInt (-5)))
    = Ok (models.weights (models.dense_inh m))
  /\ models.num_message_bits (models.dense m)
    = Some (get params "num_message_bits" (PyInt 1))
  /\ models.num_message_bits (models.dense_exc m) = None
  /\ models.num_message_bits (models.dense_inh m) = None
  /\ models.connections m =
     [ ((models.proc, models.s_in), (models.self_dense, models.s_in));
       ((models.self_dense, models.a_out), (models.self_lif, models.a_in));
       ((models.self_lif, models.s_out), (models.proc, models.s_out));
       ((models.self_lif, models.s_out), (models.self_dense_exc, models.s_in));
       ((models.self_dense_exc, models.a_out), (models.self_lif, models.a_in));
       ((models.self_lif, models.s_out), (models.self_dense_inh, models.s_in));
       ((models.self_dense_inh, models.a_out), (models.self_lif, models.a_in)) ].
Proof.
  intros H.
  apply init_steps in H
    as (wi & wx & wh & n & Hi & Hx & Hh & _ & Hd & Hdx & Hdh & _ & Hc & _).
  apply Dense_new_Ok in Hd as (-> & _).
  apply Dense_new_Ok in Hdx as (-> & _).
  apply Dense_new_Ok in Hdh as (-> & _).
  cbn [models.weights models.num_message_bits]. auto 10.
Qed.

Lemma get_present (d : gmap string pyval) (key : string) (dflt x : pyval) :
  d !! key = Some x -> get d key dflt = x.
Proof. unfold get. now intros ->. Qed.

Lemma get_absent (d : gmap string pyval) (key : string) (dflt : pyval) :
  d !! key = None -> get d key dflt = dflt.
Proof. unfold get. now intros ->. Qed.

(** ** The claims about the weight matrices *)









(** ** Arrays are determined by their entries *)

Lemma ndarray_2d_ext (a b : ndarray) (m n : nat) :
  nd_shape a = [m; n] -> nd_shape b = [m; n] ->
  length (nd_data a) = m * n -> length (nd_data b) = m * n ->
  (forall i j, i < m -> j < n -> item2 a i j = item2 b i j) ->
  a = b.
Proof.
  destruct a as [sa da], b as [sb db]. cbn [nd_shape nd_data].
  intros -> -> Ha Hb H. f_equal.
  apply (nth_ext _ _ 0%Z 0%Z); [congruence|].
  intros k Hk. rewrite Ha in Hk.
  assert (Hn : n <> 0) by (intros ->; lia).
  assert (Hi : k / n < m) by (apply Nat.Div0.div_lt_upper_bound; lia).
  assert (Hj : k mod n < n) by (now apply Nat.mod_upper_bound).
  specialize (H _ _ Hi Hj). unfold item2, item in H.
  cbn [nd_shape nd_data] in H. rewrite ravel_2d in H.
  replace (k / n * n + k mod n) with k in H; [exact H|].
  rewrite (Nat.div_mod_eq k n) at 1. lia.
Qed.

Lemma item2_J_minus_I (n i j : nat) :
  i < n -> j < n -> item2 (J_minus_I n) i j = if i =? j then 0%Z else 1%Z.
Proof.
  intros Hi Hj. unfold item2, item. cbn [nd_shape nd_data J_minus_I].
  rewrite ravel_2d. now rewrite nth_grid.
Qed.

Lemma np_subtract_ones_eye (n : nat) :
  np_subtract (full [n; n] 1%Z) (PyNdarray (eye n)) = Ok (J_minus_I n).
Proof.
  unfold np_subtract. cbn [np_asarray bind].
  destruct (elementwise_same_2d Z.sub (full [n; n] 1%Z) (eye n) n n eq_refl eq_refl
              (eye_exact n)) as (D & HD & Hs & Hl & He).
  rewrite HD. f_equal.
  apply (ndarray_2d_ext _ _ n n); try assumption; try reflexivity.
  - apply length_grid.
  - intros i j Hi Hj.
    rewrite He, item2_full, item2_eye, item2_J_minus_I by assumption.
    now destruct (i =? j).
Qed.

(** What the two expansions compute for a value that is not a 2-D array. *)
Lemma diagonal_expansion (n n_in : nat) (w : pyval) :
  is_ndarray_2d w = false ->
  models.diagonal_weights (shape_tuple n n_in) w
  = (b <- np_asarray w ;; r <- elementwise Z.mul (eye n) b ;; Ok (PyNdarray r)).
Proof.
  intros H. unfold models.diagonal_weights. rewrite H.
  cbn [negb shape_tuple getitem nth_error bind].
  rewrite np_eye_of_nat. cbn [bind]. unfold np_multiply.
  now destruct (np_asarray w).
Qed.

Lemma off_diagonal_expansion (n n_in : nat) (w : pyval) :
  is_ndarray_2d w = false ->
  models.off_diagonal_weights (shape_tuple n n_in) w
  = (b <- np_asarray w ;; r <- elementwise Z.mul (J_minus_I n) b ;; Ok (PyNdarray r)).
Proof.
  intros H. unfold models.off_diagonal_weights. rewrite H.
  cbn [negb shape_tuple getitem nth_error bind].
  rewrite np_ones_square. cbn [bind]. rewrite np_eye_of_nat. cbn [bind].
  rewrite np_subtract_ones_eye. cbn [bind]. unfold np_multiply.
  now destruct (np_asarray w).
Qed.

(** A list of [n] lists of [n] numbers is an [n] by [n] array; [row] is
    the kind of the rows, list or tuple. *)
Lemma sequence_asarray_rows (row : list pyval -> pyval) (rows : list (list Z)) :
  (forall xs, np_asarray (row xs) = np_asarray (PyTuple xs)) ->
  sequence (map np_asarray (map (fun r => row (map PyInt r)) rows))
  = Ok (map (fun r => {| nd_shape := [length r]; nd_data := r |}) rows).
Proof.
  intros Hrow. induction rows as [|r rows IH]; [reflexivity|].
  cbn [map sequence]. rewrite Hrow, np_asarray_ints, IH. reflexivity.
Qed.

Lemma np_asarray_rows (row : list pyval -> pyval) (n : nat) (rows : list (list Z)) :
  (forall xs, np_asarray (row xs) = np_asarray (PyTuple xs)) ->
  0 < n -> length rows = n -> Forall (fun r => length r = n) rows ->
  np_asarray (PyTuple (map (fun r => row (map PyInt r)) rows))
  = Ok {| nd_shape := [n; n]; nd_data := concat rows |}.
Proof.
  intros Hrow Hn Hlen Hrows. cbn [np_asarray].
  rewrite (sequence_asarray_rows row rows Hrow). cbn [bind].
  destruct rows as [|r rows]; [simpl in Hlen; lia|].
  unfold stack. cbn [map].
  replace (forallb _ _) with true.
  - cbn [nd_shape nd_data length]. rewrite length_map, map_map. cbn [nd_data].
    rewrite map_id. simpl in Hlen. inversion Hrows; subst.
    repeat f_equal; congruence.
  - symmetry. apply forallb_forall. intros b Hb.
    apply bool_decide_eq_true.
    change ({| nd_shape := [length r]; nd_data := r |}
              :: map (fun r => {| nd_shape := [length r]; nd_data := r |}) rows)
      with (map (fun r => {| nd_shape := [length r]; nd_data := r |}) (r :: rows))
      in Hb.
    apply in_map_iff in Hb. destruct Hb as (y & <- & Hy).
    rewrite List.Forall_forall in Hrows. cbn [nd_shape].
    rewrite (Hrows y Hy), (Hrows r (or_introl eq_refl)). reflexivity.
Qed.

Lemma nth_concat_rows (n : nat) (rows : list (list Z)) (i j : nat) :
  Forall (fun r => length r = n) rows -> i < length rows -> j < n ->
  nth (i * n + j) (concat rows) 0%Z = nth j (nth i rows []) 0%Z.
Proof.
  intros Hrows. revert i. induction Hrows as [|r rows Hr _ IH]; intros i Hi Hj.
  - simpl in Hi. lia.
  - simpl concat. destruct i as [|i].
    + rewrite app_nth1 by lia. reflexivity.
    + rewrite app_nth2 by lia. rewrite Hr.
      replace (S i * n + j - n) with (i * n + j) by lia.
      simpl in Hi. rewrite IH by lia. reflexivity.
Qed.

Lemma is_ndarray_2d_spec (w : pyval) :
  is_ndarray_2d w = true <-> exists a, w = PyNdarray a /\ ndim a = 2.
Proof.
  split.
  - destruct w as [z|xs|xs|a]; simpl; try discriminate.
    intros H. exists a. split; [reflexivity|]. now apply Nat.eqb_eq.
  - intros (a & -> & H). simpl. now apply Nat.eqb_eq.
Qed.

Lemma Forall_concat {A} (P : A -> Prop) (ls : list (list A)) :
  Forall (Forall P) ls -> Forall P (concat ls).
Proof.
  induction 1 as [|l ls Hl _ IH]; [constructor|].
  cbn [concat]. apply List.Forall_app. now split.
Qed.

(** A nested list of the layer's size loses its off-diagonal (respectively
    diagonal) entries in the expansion. *)
Lemma nested_list_expansion (n n_in : nat) (rows : list (list Z)) (w : pyval) :
  0 < n -> length rows = n -> Forall (fun r => length r = n) rows ->
  Forall (Forall exact_in_float64) rows ->
  w = PyList (map (fun r => PyList (map PyInt r)) rows)
  \/ w = PyTuple (map (fun r => PyTuple (map PyInt r)) rows) ->
  exists Mi Mh,
    models.diagonal_weights (shape_tuple n n_in) w = Ok (PyNdarray Mi)
    /\ models.off_diagonal_weights (shape_tuple n n_in) w = Ok (PyNdarray Mh)
    /\ nd_shape Mi = [n; n] /\ nd_shape Mh = [n; n]
    /\ forall i j, i < n -> j < n ->
         item2 Mi i j = (if i =? j then nth j (nth i rows []) 0%Z else 0%Z)
         /\ item2 Mh i j = (if i =? j then 0%Z else nth j (nth i rows []) 0%Z).
Proof.
  intros Hn Hlen Hrows Hex Hw.
  assert (H2 : is_ndarray_2d w = false) by (destruct Hw as [-> | ->]; reflexivity).
  assert (Hb : np_asarray w = Ok {| nd_shape := [n; n]; nd_data := concat rows |}).
  { destruct Hw as [-> | ->].
    - rewrite np_asarray_list. now apply (np_asarray_rows PyList).
    - now apply (np_asarray_rows PyTuple). }
  rewrite diagonal_expansion, off_diagonal_expansion, Hb by assumption. cbn [bind].
  set (B := {| nd_shape := [n; n]; nd_data := concat rows |}).
  assert (HexB : Forall exact_in_float64 (nd_data B)) by now apply Forall_concat.
  destruct (elementwise_same_2d Z.mul (eye n) B n n eq_refl eq_refl HexB)
    as (Mi & HMi & Hsi & _ & Hei).
  destruct (elementwise_same_2d Z.mul (J_minus_I n) B n n eq_refl eq_refl HexB)
    as (Mh & HMh & Hsh & _ & Heh).
  rewrite HMi, HMh. exists Mi, Mh. conjuncts.
  intros i j Hi Hj.
  assert (HB : item2 B i j = nth j (nth i rows []) 0%Z).
  { unfold item2, item, B. cbn [nd_shape nd_data]. rewrite ravel_2d.
    apply nth_concat_rows; [assumption | lia | assumption]. }
  rewrite Hei, Heh, item2_eye, item2_J_minus_I, HB by assumption.
  destruct (i =? j); split; lia.
Qed.

(** C10. The weight is used unchanged exactly when it is a numpy array
    with [ndim == 2].  Every other value goes through the expansion: it is
    multiplied elementwise with the identity (input, excitatory) or with
    the all-ones-minus-identity array (inhibitory).  A nested list of the
    layer's size is such a value: only its diagonal (respectively its
    off-diagonal part) survives, each surviving entry being the entry of
    the list when that is a whole number of magnitude at most [2 ^ 53]. *)
Theorem C10_only_2d_ndarray_unchanged (n n_in : nat) (w : pyval) :
  (is_ndarray_2d w = true <-> exists a, w = PyNdarray a /\ ndim a = 2)
  /\ (is_ndarray_2d w = true ->
      models.diagonal_weights (shape_tuple n n_in) w = Ok w
      /\ models.off_diagonal_weights (shape_tuple n n_in) w = Ok w)
  /\ (is_ndarray_2d w = false ->
      models.diagonal_weights (shape_tuple n n_in) w
      = (b <- np_asarray w ;; r <- elementwise Z.mul (eye n) b ;; Ok (PyNdarray r))
      /\ models.off_diagonal_weights (shape_tuple n n_in) w
         = (b <- np_asarray w ;;
            r <- elementwise Z.mul (J_minus_I n) b ;; Ok (PyNdarray r)))
  /\ (forall rows : list (list Z),
        0 < n -> length rows = n -> Forall (fun r => length r = n) rows ->
        Forall (Forall exact_in_float64) rows ->
        w = PyList (map (fun r => PyList (map PyInt r)) rows)
        \/ w = PyTuple (map (fun r => PyTuple (map PyInt r)) rows) ->
        is_ndarray_2d w = false
        /\ exists Mi Mh,
             models.diagonal_weights (shape_tuple n n_in) w = Ok (PyNdarray Mi)
             /\ models.off_diagonal_weights (shape_tuple n n_in) w = Ok (PyNdarray Mh)
             /\ nd_shape Mi = [n; n] /\ nd_shape Mh = [n; n]
             /\ forall i j, i < n -> j < n ->
                  item2 Mi i j = (if i =? j then nth j (nth i rows []) 0%Z else 0%Z)
                  /\ item2 Mh i j
                     = (if i =? j then 0%Z else nth j (nth i rows []) 0%Z)).
Proof.
  split; [apply is_ndarray_2d_spec|]. split; [|split].
  - intros H. unfold models.diagonal_weights, models.off_diagonal_weights.
    now rewrite H.
  - intros H. split; [now apply diagonal_expansion | now apply off_diagonal_expansion].
  - intros rows Hn Hlen Hrows Hex Hw.
    split; [destruct Hw as [-> | ->]; reflexivity|].
    now apply nested_list_expansion.
Qed.

Lemma C10_witness :
  is_ndarray_2d nested_2x2 = false
  /\ exists Mi Mh,
       models.diagonal_weights (shape_tuple 2 2) nested_2x2 = Ok (PyNdarray Mi)
       /\ models.off_diagonal_weights (shape_tuple 2 2) nested_2x2 = Ok (PyNdarray Mh)
       /\ item2 Mi 0 1 = 0%Z /\ item2 Mi 1 1 = 4%Z
       /\ item2 Mh 0 1 = 2%Z /\ item2 Mh 1 1 = 0%Z.
Proof.
  destruct (C10_only_2d_ndarray_unchanged 2 2 nested_2x2) as (_ & _ & _ & H).
  destruct (H [[1; 2]; [3; 4]]%Z) as (H2 & Mi & Mh & Hi & Hh & _ & _ & He).
  - lia.
  - reflexivity.
  - repeat constructor.
  - repeat constructor; unfold exact_in_float64; lia.
  - left. reflexivity.
  - split; [exact H2|]. exists Mi, Mh.
    split; [exact Hi|]. split; [exact Hh|].
    destruct (He 0 1) as (E1 & E2); [lia | lia |].
    destruct (He 1 1) as (E3 & E4); [lia | lia |].
    auto.
Defined.

Example nested_list_not_kept :
  models.diagonal_weights (shape_tuple 2 2) nested_2x2
  = Ok (PyNdarray {| nd_shape := [2; 2]; nd_data := [1; 0; 0; 4]%Z |})
  /\ models.diagonal_weights (shape_tuple 2 2)
       (PyNdarray {| nd_shape := [2; 2]; nd_data := [1; 2; 3; 4]%Z |})
     = Ok (PyNdarray {| nd_shape := [2; 2]; nd_data := [1; 2; 3; 4]%Z |}).
Proof. split; reflexivity. Qed.

(** ** What the process constructor records *)

Lemma process_init_inversion (kwargs : gmap string pyval) (p : process.WTALayer) :
  process.__init__ kwargs = Ok p ->
  let shape := get kwargs "shape" (PyTuple [PyInt 1; PyInt 1]) in
  exists n_out n_in,
    getitem shape 0 = Ok n_out /\ getitem shape 1 = Ok n_in
    /\ process.proc_params p = kwargs
    /\ process.s_in p = mk_InPort (PyTuple [n_in])
    /\ process.s_out p = mk_OutPort (PyTuple [n_out])
    /\ process.u p = mk_Var (PyTuple [n_out]) (PyInt 0)
    /\ process.v p = mk_Var (PyTuple [n_out]) (PyInt 0)
    /\ process.du p = mk_Var (PyTuple [PyInt 1]) (get kwargs "du" (PyInt 4095))
    /\ process.dv p = mk_Var (PyTuple [PyInt 1]) (get kwargs "dv" (PyInt 0))
    /\ process.vth p = mk_Var (PyTuple [PyInt 1]) (get kwargs "vth" (PyInt 10))
    /\ process.inp_weights p = mk_Var shape (get kwargs "inp_weights" (PyInt 0))
    /\ process.exc_weights p = mk_Var shape (get kwargs "exc_weights" (PyInt 5))
    /\ process.inh_weights p = mk_Var shape (get kwargs "inh_weights" (PyInt (-5)))
    /\ process.num_message_bits p
       = mk_Var (PyTuple [PyInt 1]) (get kwargs "num_message_bits" (PyInt 1)).
Proof.
  unfold process.__init__. intros H.
  apply bind_Ok in H as (n_in & Hin & H).
  apply bind_Ok in H as (s_in & ->%InPort_new_Ok & H).
  apply bind_Ok in H as (n_out & Hout & H).
  apply bind_Ok in H as (s_out & ->%OutPort_new_Ok & H).
  apply bind_Ok in H as (n_u & Hu & H).
  apply bind_Ok in H as (u & (-> & _)%Var_new_Ok & H).
  apply bind_Ok in H as (n_v & Hv & H).
  apply bind_Ok in H as (v & (-> & _)%Var_new_Ok & H).
  apply bind_Ok in H as (du & (-> & _)%Var_new_Ok & H).
  apply bind_Ok in H as (dv & (-> & _)%Var_new_Ok & H).
  apply bind_Ok in H as (vth & (-> & _)%Var_new_Ok & H).
  apply bind_Ok in H as (wi & (-> & _)%Var_new_Ok & H).
  apply bind_Ok in H as (wx & (-> & _)%Var_new_Ok & H).
  apply bind_Ok in H as (wh & (-> & _)%Var_new_Ok & H).
  apply bind_Ok in H as (nmb & (-> & _)%Var_new_Ok & H).
  injection H as <-. exists n_out, n_in. cbn.
  assert (n_u = n_out) by congruence. assert (n_v = n_out) by congruence.
  subst. auto 20.
Qed.

(** The process constructor asks of the shape that it is a tuple with a
    first and a second entry. *)
Lemma process_init_tuple (kwargs : gmap string pyval) (p : process.WTALayer) :
  process.__init__ kwargs = Ok p ->
  exists a b rest,
    get kwargs "shape" (PyTuple [PyInt 1; PyInt 1]) = PyTuple (a :: b :: rest).
Proof.
  unfold process.__init__. intros H.
  apply bind_Ok in H as (n_in & Hin & H).
  apply bind_Ok in H as (s_in & _ & H).
  apply bind_Ok in H as (n_out & Hout & H).
  apply bind_Ok in H as (s_out & _ & H).
  apply bind_Ok in H as (n_u & Hu & H).
  apply bind_Ok in H as (u & _ & H).
  apply bind_Ok in H as (n_v & Hv & H).
  apply bind_Ok in H as (v & _ & H).
  apply bind_Ok in H as (du & _ & H).
  apply bind_Ok in H as (dv & _ & H).
  apply bind_Ok in H as (vth & _ & H).
  apply bind_Ok in H as (wi & (_ & Ht)%Var_new_Ok & _).
  destruct (get kwargs "shape" _) as [z|[|a [|b rest]]|xs|A]; try discriminate.
  eauto.
Qed.

Lemma process_init_total (kwargs : gmap string pyval) (n_out n_in : pyval)
    (rest : list pyval) :
  get kwargs "shape" (PyTuple [PyInt 1; PyInt 1]) = PyTuple (n_out :: n_in :: rest) ->
  exists p, process.__init__ kwargs = Ok p.
Proof.
  intros H. unfold process.__init__. rewrite H. cbn. eauto.
Qed.

Lemma init_lif (p : process.WTALayer) (m : models.SubWTALayerModel) :
  models.__init__ p = Ok m ->
  let params := process.proc_params p in
  exists n,
    getitem (get params "shape" (PyTuple [PyInt 1; PyInt 1])) 0 = Ok n
    /\ models.lif m
       = models.mk_LIF (PyTuple [n]) (get params "du" (PyInt 4095))
           (get params "dv" (PyInt 0)) (get params "vth" (PyInt 10)).
Proof.
  intros H.
  apply init_steps in H as (wi & wx & wh & n & _ & _ & _ & Hn & _ & _ & _ & Hl & _).
  eauto.
Qed.

(** *** The shapes of a layer that is built *)

Lemma pair_of_nat (s : list nat) (r c : Z) :
  map Z.of_nat s = [r; c] ->
  exists x y, s = [x; y] /\ r = Z.of_nat x /\ c = Z.of_nat y.
Proof.
  destruct s as [|x [|y [|z s]]]; try discriminate.
  intros [= <- <-]. eauto.
Qed.

(** A model is built only for a square layer whose three weight
    matrices have the shape of the layer: the framework refuses to
    connect ports of different widths and to alias variables of
    different shapes. *)
Lemma built_shapes (kwargs : gmap string pyval) (p : process.WTALayer)
    (m : models.SubWTALayerModel) (r c : Z) :
  get kwargs "shape" (PyTuple [PyInt 1; PyInt 1]) = PyTuple [PyInt r; PyInt c] ->
  process.__init__ kwargs = Ok p -> models.__init__ p = Ok m ->
  r = c
  /\ exists Wi Wx Wh,
       models.weights (models.dense m) = PyNdarray Wi
       /\ models.weights (models.dense_exc m) = PyNdarray Wx
       /\ models.weights (models.dense_inh m) = PyNdarray Wh
       /\ map Z.of_nat (nd_shape Wi) = [r; c]
       /\ map Z.of_nat (nd_shape Wx) = [r; c]
       /\ map Z.of_nat (nd_shape Wh) = [r; c].
Proof.
  intros Hshape Hp Hm.
  apply process_init_inversion in Hp
    as (n_out & n_in & H0 & _ & Hk & _ & _ & _ & _ & _ & _ & _ & Hvi & Hvx & Hvh & _).
  apply init_steps in Hm
    as (wi & wx & wh & n & _ & _ & _ & Hn & Hd & Hdx & Hdh & _ & _
        & _ & _ & C4 & _ & _ & _ & A6 & A7 & A8).
  rewrite Hk, Hshape in Hn. rewrite Hshape in Hvi, Hvx, Hvh.
  cbn in Hn. injection Hn as <-.
  apply Dense_new_Ok in Hd as (Ed & Wi & -> & _).
  apply Dense_new_Ok in Hdx as (Edx & Wx & -> & _).
  apply Dense_new_Ok in Hdh as (Edh & Wh & -> & _).
  rewrite Ed in A6. rewrite Edx in A7, C4. rewrite Edh in A8.
  rewrite Hvi in A6. rewrite Hvx in A7. rewrite Hvh in A8.
  cbn [var_shape models.Dense_weights_shape models.weights] in A6, A7, A8.
  apply alias_shape_of in A6, A7, A8.
  assert (r = c).
  { destruct (pair_of_nat _ _ _ A7) as (x & y & E & -> & ->).
    cbn [models.Dense_s_in_shape models.weights] in C4. rewrite E in C4.
    cbn [nth] in C4. now apply connect_widths in C4. }
  split; [assumption|]. exists Wi, Wx, Wh. rewrite Ed, Edx, Edh.
  cbn [models.weights]. auto 10.
Qed.

(** The model of a square layer is built once its three weight options
    have expanded to arrays of the shape of the layer. *)
Lemma init_square (kwargs : gmap string pyval) (p : process.WTALayer) (n : nat)
    (Mi Mx Mh : ndarray) :
  get kwargs "shape" (PyTuple [PyInt 1; PyInt 1]) = shape_tuple n n ->
  process.__init__ kwargs = Ok p ->
  models.diagonal_weights (shape_tuple n n) (get kwargs "inp_weights" (PyInt 1))
  = Ok (PyNdarray Mi) ->
  models.diagonal_weights (shape_tuple n n) (get kwargs "exc_weights" (PyInt 5))
  = Ok (PyNdarray Mx) ->
  models.off_diagonal_weights (shape_tuple n n) (get kwargs "inh_weights" (PyInt (-5)))
  = Ok (PyNdarray Mh) ->
  nd_shape Mi = [n; n] -> nd_shape Mx = [n; n] -> nd_shape Mh = [n; n] ->
  exists m,
    models.__init__ p = Ok m
    /\ models.weights (models.dense m) = PyNdarray Mi
    /\ models.weights (models.dense_exc m) = PyNdarray Mx
    /\ models.weights (models.dense_inh m) = PyNdarray Mh
    /\ models.shape (models.lif m) = PyTuple [PyInt (Z.of_nat n)].
Proof.
  intros Hshape Hp HMi HMx HMh Hsi Hsx Hsh.
  apply process_init_inversion in Hp
    as (n_out & n_in & H0 & H1 & Hk & Hin & Hout & Hu & Hv & Hdu & Hdv & Hvth
        & Hvi & Hvx & Hvh & Hb).
  rewrite Hshape in H0, H1, Hvi, Hvx, Hvh.
  cbn in H0, H1. injection H0 as <-. injection H1 as <-.
  unfold models.__init__.
  rewrite Hk, Hshape, HMi, HMx, HMh. cbn [bind].
  rewrite !Dense_new_2d by (unfold ndim; rewrite ?Hsi, ?Hsx, ?Hsh; reflexivity).
  cbn [bind shape_tuple getitem nth_error models.shape].
  rewrite Hin, Hout, Hu, Hv, Hdu, Hdv, Hvth, Hvi, Hvx, Hvh, Hb.
  cbn [in_shape out_shape var_shape models.Dense_s_in_shape models.Dense_a_out_shape
       models.Dense_weights_shape models.weights shape_of].
  unfold shape_of, shape_tuple. rewrite Hsi, Hsx, Hsh. cbn [nth map].
  repeat (first [rewrite connect_refl | rewrite alias_refl]; cbn [bind]).
  eexists. split; [reflexivity|]. cbn. auto.
Qed.

(** The options on whose default the two constructors agree. *)
Lemma defaults_shared (kwargs : gmap string pyval) (p : process.WTALayer)
    (m : models.SubWTALayerModel) :
  process.__init__ kwargs = Ok p -> models.__init__ p = Ok m ->
  (kwargs !! "du" = None ->
   var_init (process.du p) = PyInt 4095 /\ models.du (models.lif m) = PyInt 4095)
  /\ (kwargs !! "dv" = None ->
      var_init (process.dv p) = PyInt 0 /\ models.dv (models.lif m) = PyInt 0)
  /\ (kwargs !! "vth" = None ->
      var_init (process.vth p) = PyInt 10 /\ models.vth (models.lif m) = PyInt 10)
  /\ (kwargs !! "num_message_bits" = None ->
      var_init (process.num_message_bits p) = PyInt 1
      /\ models.num_message_bits (models.dense m) = Some (PyInt 1))
  /\ (kwargs !! "exc_weights" = None ->
      var_init (process.exc_weights p) = PyInt 5
      /\ models.diagonal_weights (get kwargs "shape" (PyTuple [PyInt 1; PyInt 1])) (PyInt 5)
         = Ok (models.weights (models.dense_exc m)))
  /\ (kwargs !! "inh_weights" = None ->
      var_init (process.inh_weights p) = PyInt (-5)
      /\ models.off_diagonal_weights (get kwargs "shape" (PyTuple [PyInt 1; PyInt 1]))
           (PyInt (-5))
         = Ok (models.weights (models.dense_inh m))).
Proof.
  intros Hp Hm.
  apply process_init_inversion in Hp
    as (n_out & n_in & _ & _ & Hk & _ & _ & _ & _ & Hdu & Hdv & Hvth & _ & Hx & Hh & Hb).
  pose proof (init_lif _ _ Hm) as (n & _ & Hlif).
  apply init_inversion in Hm as (_ & Hxm & Hhm & Hbm & _).
  rewrite Hk in *. rewrite Hdu, Hdv, Hvth, Hx, Hh, Hb, Hlif, Hbm.
  cbn [var_init models.du models.dv models.vth].
  repeat match goal with |- _ /\ _ => split end;
    intros Hnone; rewrite ?(get_absent _ _ _ Hnone) in *; auto.
Qed.

(** The option on whose default they differ: the process records 0, its
    model expands 1. *)
Lemma default_inp_weights (kwargs : gmap string pyval) (p : process.WTALayer)
    (m : models.SubWTALayerModel) :
  process.__init__ kwargs = Ok p -> models.__init__ p = Ok m ->
  kwargs !! "inp_weights" = None ->
  var_init (process.inp_weights p) = PyInt 0
  /\ models.diagonal_weights (get kwargs "shape" (PyTuple [PyInt 1; PyInt 1])) (PyInt 1)
     = Ok (models.weights (models.dense m)).
Proof.
  intros Hp Hm Hnone.
  apply process_init_inversion in Hp
    as (n_out & n_in & _ & _ & Hk & _ & _ & _ & _ & _ & _ & _ & Hi & _).
  apply init_inversion in Hm as (Him & _).
  rewrite Hk in *. rewrite Hi. cbn [var_init].
  rewrite ?(get_absent _ _ _ Hnone) in *. auto.
Qed.

(** C5. With [inp_weights] omitted, the process records the initial value
    0 for its [inp_weights] variable, while its model falls back to 1 and
    gives the input [Dense] process the identity matrix, not the zero
    matrix that the value 0 expands to. *)
Theorem C5_default_inp_weights_differ :
  kwargs_shape_only !! "inp_weights" = None
  /\ exists p m,
       process.__init__ kwargs_shape_only = Ok p /\ models.__init__ p = Ok m
       /\ var_init (process.inp_weights p) = PyInt 0
       /\ models.weights (models.dense m)
          = PyNdarray {| nd_shape := [2; 2]; nd_data := [1; 0; 0; 1]%Z |}
       /\ models.diagonal_weights (shape_tuple 2 2) (PyInt 0)
          = Ok (PyNdarray {| nd_shape := [2; 2]; nd_data := [0; 0; 0; 0]%Z |}).
Proof.
  split; [reflexivity|]. eexists. eexists.
  split; [reflexivity|]. split; [reflexivity|]. repeat split.
Qed.

(** C6. For the layer shape (2, 3) and the scalar input weight 1 the
    weight expansion of the input connections returns a 2 by 2 array, not
    a 2 by 3 one.  The process declares an input port of width 3 and an
    [inp_weights] variable of shape (2, 3); the input [Dense] process made
    of the 2 by 2 array has an input port of width 2, and the construction
    of the model stops with [AssertionError] at line 58, where the two
    ports are connected. *)
Theorem C6_input_matrix_is_square :
  exists M,
    models.diagonal_weights (shape_tuple 2 3) (PyInt 1) = Ok (PyNdarray M)
    /\ nd_shape M = [2; 2] /\ nd_shape M <> [2; 3]
    /\ exists p,
         process.__init__ kwargs_2x3 = Ok p
         /\ in_shape (process.s_in p) = PyTuple [PyInt 3]
         /\ var_shape (process.inp_weights p) = shape_tuple 2 3
         /\ models.Dense_s_in_shape (models.mk_Dense (PyNdarray M) (Some (PyInt 1)))
            = PyTuple [PyInt 2]
         /\ raises (connect (in_shape (process.s_in p))
                            (models.Dense_s_in_shape
                               (models.mk_Dense (PyNdarray M) (Some (PyInt 1)))))
                   AssertionError
         /\ raises (models.__init__ p) AssertionError
         /\ raises (build_layer kwargs_2x3) AssertionError.
Proof.
  eexists. split; [reflexivity|]. split; [reflexivity|]. split; [discriminate|].
  eexists. split; [reflexivity|]. repeat split.
Qed.

(** ** Message width and wiring *)

(** C7. Only the input [Dense] process is constructed with
    [num_message_bits], and it gets the configured value; the excitatory
    and inhibitory [Dense] processes are constructed without it, and the
    only port connected to their spike inputs is the spike output of the
    neuron population. *)
Theorem C7_message_bits_only_on_input (p : process.WTALayer)
    (m : models.SubWTALayerModel) :
  models.__init__ p = Ok m ->
  models.num_message_bits (models.dense m)
  = Some (get (process.proc_params p) "num_message_bits" (PyInt 1))
  /\ models.num_message_bits (models.dense_exc m) = None
  /\ models.num_message_bits (models.dense_inh m) = None
  /\ (forall src, In (src, (models.self_dense, models.s_in)) (models.connections m)
                  <-> src = (models.proc, models.s_in))
  /\ (forall src, In (src, (models.self_dense_exc, models.s_in)) (models.connections m)
                  <-> src = (models.self_lif, models.s_out))
  /\ (forall src, In (src, (models.self_dense_inh, models.s_in)) (models.connections m)
                  <-> src = (models.self_lif, models.s_out)).
Proof.
  intros H. apply init_inversion in H as (_ & _ & _ & Hb & Hbx & Hbh & Hc).
  rewrite Hc. conjuncts.
  repeat split; intros H; simpl in *;
    try (subst; tauto);
    repeat (destruct H as [H|H]; [congruence + discriminate|]); contradiction.
Qed.

Lemma C7_witness :
  exists p m,
    process.__init__ kwargs_graded = Ok p /\ models.__init__ p = Ok m
    /\ models.num_message_bits (models.dense m) = Some (PyInt 8)
    /\ models.num_message_bits (models.dense_exc m) = None
    /\ models.num_message_bits (models.dense_inh m) = None.
Proof.
  eexists. eexists. split; [reflexivity|].
  match goal with |- models.__init__ ?P = _ /\ _ =>
    split; [reflexivity|];
    destruct (C7_message_bits_only_on_input P _ eq_refl) as (Hb & Hx & Hh & _) end.
  split; [exact Hb|]. split; [exact Hx | exact Hh].
Defined.

(** ** Initial state *)

Lemma map_const_repeat {A B} (x : B) (l : list A) :
  map (fun _ => x) l = repeat x (length l).
Proof. induction l as [|a l IH]; simpl; congruence. Qed.

Lemma var_value_zeros (n : nat) :
  var_value (mk_Var (PyTuple [PyInt (Z.of_nat n)]) (PyInt 0))
  = Ok {| nd_shape := [n]; nd_data := repeat 0%Z n |}.
Proof.
  unfold var_value, as_shape. cbn [var_shape var_init map sequence].
  rewrite as_dim_of_nat. cbn [bind]. unfold np_broadcast_to.
  cbn [np_asarray bind nd_shape]. rewrite bool_decide_eq_true_2 by reflexivity.
  do 2 f_equal. rewrite ndindex_1d, map_map.
  rewrite (map_const_repeat 0%Z). now rewrite length_seq.
Qed.

(** C8. A layer constructed for the shape [(n_out, n_in)] (given, or the
    default (1, 1)) has variables [u] and [v] of shape [(n_out,)] with
    initial value 0: each holds [n_out] entries, all of them 0. *)
Theorem C8_initial_state (kwargs : gmap string pyval) (n_out n_in : nat) :
  get kwargs "shape" (PyTuple [PyInt 1; PyInt 1]) = shape_tuple n_out n_in ->
  exists p U V,
    process.__init__ kwargs = Ok p
    /\ process.u p = mk_Var (PyTuple [PyInt (Z.of_nat n_out)]) (PyInt 0)
    /\ process.v p = mk_Var (PyTuple [PyInt (Z.of_nat n_out)]) (PyInt 0)
    /\ var_value (process.u p) = Ok U /\ var_value (process.v p) = Ok V
    /\ nd_shape U = [n_out] /\ nd_shape V = [n_out]
    /\ length (nd_data U) = n_out /\ length (nd_data V) = n_out
    /\ Forall (fun x => x = 0%Z) (nd_data U)
    /\ Forall (fun x => x = 0%Z) (nd_data V).
Proof.
  intros Hshape.
  destruct (process_init_total kwargs _ _ _ Hshape) as (p & Hp).
  pose proof (process_init_inversion _ _ Hp)
    as (n0 & n1 & H0 & _ & _ & _ & _ & Hu & Hv & _).
  rewrite Hshape in H0. injection H0 as <-.
  exists p, {| nd_shape := [n_out]; nd_data := repeat 0%Z n_out |},
    {| nd_shape := [n_out]; nd_data := repeat 0%Z n_out |}.
  rewrite Hu, Hv, var_value_zeros. cbn [nd_shape nd_data].
  rewrite repeat_length. conjuncts.
  split; apply List.Forall_forall; intros x Hx; now apply repeat_spec in Hx.
Qed.

Lemma C8_witness :
  exists p U V,
    process.__init__ kwargs_2x3 = Ok p
    /\ var_value (process.u p) = Ok U /\ var_value (process.v p) = Ok V
    /\ nd_data U = [0; 0]%Z /\ nd_data V = [0; 0]%Z.
Proof.
  destruct (C8_initial_state kwargs_2x3 2 3 eq_refl)
    as (p & U & V & Hp & _ & _ & HU & HV & _ & _ & HlU & HlV & HzU & HzV).
  exists p, U, V. conjuncts.
  destruct U as [sU [|a [|b [|c dU]]]], V as [sV [|x [|y [|z dV]]]];
    try discriminate.
  cbn [nd_data] in *.
  inversion HzU as [|? ? -> HzU']; inversion HzU' as [|? ? -> _].
  inversion HzV as [|? ? -> HzV']; inversion HzV' as [|? ? -> _].
  split; reflexivity.
Defined.

(** ** No configuration error *)

Section NoConfigurationError.































End NoConfigurationError.


Lemma exact_scalar_or_omitted_get (kwargs : gmap string pyval) (key : string)
    (d : Z) :
  exact_in_float64 d -> exact_scalar_or_omitted kwargs key ->
  exists w, get kwargs key (PyInt d) = PyInt w /\ exact_in_float64 w.
Proof.
  unfold get. intros Hd [-> | (w & -> & Hw)]; simpl; eauto.
Qed.

Lemma build_layer_Ok (kwargs : gmap string pyval) (p : process.WTALayer)
    (m : models.SubWTALayerModel) :
  build_layer kwargs = Ok (p, m) <->
  process.__init__ kwargs = Ok p /\ models.__init__ p = Ok m.
Proof.
  unfold build_layer. split.
  - intros H. apply bind_Ok in H as (p' & Hp & H).
    apply bind_Ok in H as (m' & Hm & [= <- <-]). auto.
  - intros (Hp & Hm). rewrite Hp. cbn [bind]. now rewrite Hm.
Qed.







(** ** The feedback delay *)

Section StepFacts.

Variable quantize : pyval -> vec -> vec.

(** For the wiring of the source, the current into the population is
    the sum of the three pathways, the two feedback pathways reading
    the retained spikes. *)
Lemma a_in_of_init (p : process.WTALayer) (m : models.SubWTALayerModel)
    (st : layer_state) (s_in : vec) :
  models.__init__ p = Ok m ->
  a_in_of quantize m st s_in
  = vadd (vadd (propagate quantize (models.dense m) s_in)
               (propagate quantize (models.dense_exc m) (feedback st)))
         (propagate quantize (models.dense_inh m) (feedback st)).
Proof.
  intros H. apply init_inversion in H as (_ & _ & _ & _ & _ & _ & Hc).
  unfold a_in_of, current_of, sources. rewrite Hc. reflexivity.
Qed.

(** The current into the population depends on the state only through
    the retained spikes. *)
Lemma a_in_of_feedback (m : models.SubWTALayerModel) (st1 st2 : layer_state)
    (s_in : vec) :
  feedback st1 = feedback st2 ->
  a_in_of quantize m st1 s_in = a_in_of quantize m st2 s_in.
Proof.
  intros H. unfold a_in_of. f_equal. apply map_ext. intros src.
  unfold current_of. destruct (dense_of m src.1); [|reflexivity].
  destruct src.2; try reflexivity.
  do 2 f_equal. apply map_ext. intros [[] []]; simpl; congruence.
Qed.

Section Run.

Variable neurons : models.LIF -> vec * vec -> vec -> (vec * vec) * vec.
Variable m : models.SubWTALayerModel.

Lemma run_cons (st : layer_state) (s_in : vec) (rest : list vec) :
  exists uv s_out,
    neurons (models.lif m) (population st) (a_in_of quantize m st s_in)
    = (uv, s_out)
    /\ run quantize neurons m st (s_in :: rest)
       = (a_in_of quantize m st s_in, s_out)
           :: run quantize neurons m (mk_layer_state uv s_out) rest.
Proof.
  cbn [run]. unfold step.
  destruct (neurons _ _ _) as [uv s_out]. eauto.
Qed.

Lemma run_length (st : layer_state) (inputs : list vec) :
  length (run quantize neurons m st inputs) = length inputs.
Proof.
  revert st. induction inputs as [|x rest IH]; intros st; [reflexivity|].
  destruct (run_cons st x rest) as (uv & s & _ & ->).
  simpl. now rewrite IH.
Qed.

(** The current of a step is computed from the spikes of the step
    before. *)
Lemma run_next (inputs : list vec) (st : layer_state) (t : nat)
    (a s a' s' x : vec) :
  nth_error (run quantize neurons m st inputs) t = Some (a, s) ->
  nth_error (run quantize neurons m st inputs) (S t) = Some (a', s') ->
  nth_error inputs (S t) = Some x ->
  exists st', feedback st' = s /\ a' = a_in_of quantize m st' x.
Proof.
  revert inputs st. induction t as [|t IH]; intros inputs st H0 H1 Hx.
  - destruct inputs as [|x0 [|x1 rest]]; try discriminate.
    destruct (run_cons st x0 (x1 :: rest)) as (uv & s0 & _ & E).
    rewrite E in H0, H1. cbn [nth_error] in H0, H1, Hx.
    destruct (run_cons (mk_layer_state uv s0) x1 rest) as (uv1 & s1 & _ & E1).
    rewrite E1 in H1. cbn [nth_error] in H1.
    injection H0 as <- <-. injection H1 as <- <-. injection Hx as <-.
    exists (mk_layer_state uv s0). split; reflexivity.
  - destruct inputs as [|x0 rest]; try discriminate.
    destruct (run_cons st x0 rest) as (uv & s0 & _ & E).
    rewrite E in H0, H1. cbn [nth_error] in H0, H1, Hx.
    now apply (IH rest (mk_layer_state uv s0)).
Qed.

End Run.

(** Whatever the neurons do at a step, the current of that step is
    settled by the spikes of the steps before. *)
Lemma run_causal (m : models.SubWTALayerModel)
    (f g : models.LIF -> vec * vec -> vec -> (vec * vec) * vec)
    (inputs : list vec) (st1 st2 : layer_state) (t : nat) :
  feedback st1 = feedback st2 ->
  (forall k, k < t ->
     option_map snd (nth_error (run quantize f m st1 inputs) k)
     = option_map snd (nth_error (run quantize g m st2 inputs) k)) ->
  option_map fst (nth_error (run quantize f m st1 inputs) t)
  = option_map fst (nth_error (run quantize g m st2 inputs) t).
Proof.
  revert st1 st2 t. induction inputs as [|x rest IH]; intros st1 st2 t Hfb Hout.
  - now destruct t.
  - destruct (run_cons f m st1 x rest) as (uv1 & s1 & _ & E1).
    destruct (run_cons g m st2 x rest) as (uv2 & s2 & _ & E2).
    rewrite E1, E2 in *. destruct t as [|t]; cbn [nth_error option_map fst].
    + f_equal. now apply a_in_of_feedback.
    + apply IH.
      * specialize (Hout 0 (Nat.lt_0_succ t)). cbn in Hout. cbn. congruence.
      * intros k Hk. apply (Hout (S k)). lia.
Qed.

End StepFacts.

(** C9. In a layer wired as the source wires it, the population receives
    current only from the three synaptic pathways, none of its own spike
    output directly; the excitatory and inhibitory currents of a step are
    the images of the spikes retained from the previous step; along a run
    the current at step [t + 1] is computed from the spikes of step [t];
    and the current at step [t] is the same for any two neuron dynamics
    that produced the same spikes before step [t], whatever they produce
    at step [t]. *)
Theorem C9_feedback_delay (quantize : pyval -> vec -> vec)
    (p : process.WTALayer) (m : models.SubWTALayerModel) :
  models.__init__ p = Ok m ->
  sources m (models.self_lif, models.a_in)
  = [ (models.self_dense, models.a_out); (models.self_dense_exc, models.a_out);
      (models.self_dense_inh, models.a_out) ]
  /\ sources m (models.self_dense_exc, models.s_in) = [ (models.self_lif, models.s_out) ]
  /\ sources m (models.self_dense_inh, models.s_in) = [ (models.self_lif, models.s_out) ]
  /\ (forall st s_in,
        a_in_of quantize m st s_in
        = vadd (vadd (propagate quantize (models.dense m) s_in)
                     (propagate quantize (models.dense_exc m) (feedback st)))
               (propagate quantize (models.dense_inh m) (feedback st)))
  /\ (forall neurons st inputs t a s a' s' x,
        nth_error (run quantize neurons m st inputs) t = Some (a, s) ->
        nth_error (run quantize neurons m st inputs) (S t) = Some (a', s') ->
        nth_error inputs (S t) = Some x ->
        a' = vadd (vadd (propagate quantize (models.dense m) x)
                        (propagate quantize (models.dense_exc m) s))
                  (propagate quantize (models.dense_inh m) s))
  /\ (forall f g st inputs t,
        (forall k, k < t ->
           option_map snd (nth_error (run quantize f m st inputs) k)
           = option_map snd (nth_error (run quantize g m st inputs) k)) ->
        option_map fst (nth_error (run quantize f m st inputs) t)
        = option_map fst (nth_error (run quantize g m st inputs) t)).
Proof.
  intros Hinit.
  pose proof (init_inversion _ _ Hinit) as (_ & _ & _ & _ & _ & _ & Hc).
  unfold sources. rewrite Hc. conjuncts.
  split; [intros; now apply (a_in_of_init quantize p)|]. split.
  - intros neurons st inputs t a s a' s' x H0 H1 Hx.
    destruct (run_next quantize neurons m inputs st t a s a' s' x H0 H1 Hx)
      as (st' & <- & ->).
    now apply (a_in_of_init quantize p).
  - intros f g st inputs t Hout. now apply run_causal.
Qed.

Lemma C9_witness :
  exists p m,
    process.__init__ kwargs_wta = Ok p /\ models.__init__ p = Ok m
    /\ nth_error (run no_quantize lif_population m rest_state inputs_wta) 1
       = Some ([4; 4; 0], [1; 0; 0])%Z
    /\ nth_error (run no_quantize lif_population m rest_state inputs_wta) 2
       = Some ([9; -5; -5], [1; 0; 0])%Z
    /\ [9; -5; -5]%Z
       = vadd (vadd (propagate no_quantize (models.dense m) [1; 0; 0]%Z)
                    (propagate no_quantize (models.dense_exc m) [1; 0; 0]%Z))
              (propagate no_quantize (models.dense_inh m) [1; 0; 0]%Z).
Proof.
  eexists. eexists. split; [reflexivity|].
  match goal with |- models.__init__ ?P = _ /\ _ =>
    split; [reflexivity|];
    destruct (C9_feedback_delay no_quantize P _ eq_refl)
      as (_ & _ & _ & _ & Hrun & _) end.
  split; [reflexivity|]. split; [reflexivity|].
  apply (Hrun lif_population rest_state inputs_wta 1
              [4; 4; 0]%Z [1; 0; 0]%Z [9; -5; -5]%Z [1; 0; 0]%Z [1; 0; 0]%Z);
    reflexivity.
Defined.

(** * Further properties of the two constructors *)

(** ** Inverting the numpy calls *)

Lemma broadcast_rev_length (r1 r2 r : list nat) :
  broadcast_rev r1 r2 = Some r -> length r = Nat.max (length r1) (length r2).
Proof.
  revert r2 r. induction r1 as [|d1 r1 IH]; intros [|d2 r2] r H;
    simpl in H; try (injection H as <-; simpl; lia).
  destruct (broadcast_rev r1 r2) as [r'|] eqn:E.
  - specialize (IH _ _ E).
    destruct (d1 =? d2); [|destruct (d1 =? 1); [|destruct (d2 =? 1)]];
      simpl in H; try discriminate; injection H as <-; simpl; lia.
  - destruct (d1 =? d2); [|destruct (d1 =? 1); [|destruct (d2 =? 1)]];
      simpl in H; discriminate.
Qed.

Lemma broadcast_shapes_length (s1 s2 s : list nat) :
  broadcast_shapes s1 s2 = Some s -> length s = Nat.max (length s1) (length s2).
Proof.
  unfold broadcast_shapes. intros H.
  destruct (broadcast_rev (rev s1) (rev s2)) as [r|] eqn:E; [|discriminate].
  injection H as <-. apply broadcast_rev_length in E.
  now rewrite !length_rev in *.
Qed.

Lemma elementwise_Ok (op : Z -> Z -> Z) (a b r : ndarray) :
  elementwise op a b = Ok r ->
  broadcast_shapes (nd_shape a) (nd_shape b) = Some (nd_shape r).
Proof.
  unfold elementwise. destruct (broadcast_shapes _ _); [|discriminate].
  intros H. apply bind_Ok in H as (fb & _ & [= <-]). reflexivity.
Qed.

Lemma elementwise_converts (op : Z -> Z -> Z) (a b r : ndarray) :
  elementwise op a b = Ok r ->
  exists fb, sequence (map float64_of_int (nd_data b)) = Ok fb.
Proof.
  unfold elementwise. destruct (broadcast_shapes _ _); [|discriminate].
  intros H. apply bind_Ok in H as (fb & Hfb & _). eauto.
Qed.

Lemma np_multiply_Ok (a : ndarray) (w : pyval) (r : ndarray) :
  np_multiply a w = Ok r ->
  exists b, np_asarray w = Ok b /\ elementwise Z.mul a b = Ok r.
Proof. unfold np_multiply. intros H. now apply bind_Ok in H. Qed.

Lemma np_eye_Ok (v : pyval) (e : ndarray) :
  np_eye v = Ok e -> exists k, as_dim v = Ok k /\ e = eye k.
Proof.
  unfold np_eye. intros H. apply bind_Ok in H as (k & Hk & [= <-]). eauto.
Qed.

Lemma np_ones_pair_Ok (x y : pyval) (o : ndarray) :
  np_ones (PyTuple [x; y]) = Ok o ->
  exists a b, as_dim x = Ok a /\ as_dim y = Ok b /\ o = full [a; b] 1%Z.
Proof.
  unfold np_ones, as_shape. cbn [map sequence]. intros H.
  apply bind_Ok in H as (s & Hs & [= <-]).
  apply bind_Ok in Hs as (a & Ha & Hs).
  apply bind_Ok in Hs as (l & Hl & [= <-]).
  apply bind_Ok in Hl as (b & Hb & Hl). injection Hl as <-. eauto 6.
Qed.

(** What a successful expansion of a value other than a 2-D array is. *)
Lemma diagonal_weights_Ok (shape w r : pyval) :
  is_ndarray_2d w = false ->
  models.diagonal_weights shape w = Ok r ->
  exists k b M,
    np_asarray w = Ok b /\ elementwise Z.mul (eye k) b = Ok M /\ r = PyNdarray M.
Proof.
  unfold models.diagonal_weights. intros -> H. cbn [negb] in H.
  apply bind_Ok in H as (n & _ & H).
  apply bind_Ok in H as (e & He & H).
  apply bind_Ok in H as (M & HM & [= <-]).
  apply np_eye_Ok in He as (k & _ & ->).
  apply np_multiply_Ok in HM as (b & Hb & HM). eauto 8.
Qed.

Lemma off_diagonal_weights_Ok (shape w r : pyval) :
  is_ndarray_2d w = false ->
  models.off_diagonal_weights shape w = Ok r ->
  exists D b M,
    ndim D = 2 /\ np_asarray w = Ok b /\ elementwise Z.mul D b = Ok M
    /\ r = PyNdarray M.
Proof.
  unfold models.off_diagonal_weights. intros -> H. cbn [negb] in H.
  apply bind_Ok in H as (n1 & _ & H).
  apply bind_Ok in H as (n2 & _ & H).
  apply bind_Ok in H as (o & Ho & H).
  apply bind_Ok in H as (n3 & _ & H).
  apply bind_Ok in H as (e & He & H).
  apply bind_Ok in H as (D & HD & H).
  apply bind_Ok in H as (M & HM & [= <-]).
  apply np_ones_pair_Ok in Ho as (a & c & _ & _ & ->).
  apply np_eye_Ok in He as (k & _ & ->).
  unfold np_subtract in HD. cbn [np_asarray bind] in HD.
  apply elementwise_Ok in HD. apply broadcast_shapes_length in HD.
  apply np_multiply_Ok in HM as (b & Hb & HM).
  exists D, b, M. unfold ndim. rewrite HD. auto.
Qed.


(** ** The shape option *)

(** X1. The process asks of the shape that it is a tuple with a first
    and a second entry: a tuple or list with fewer than two entries stops
    the construction with [IndexError], a number with [TypeError], a list
    with two entries or more with the [AssertionError] of the framework,
    which takes the shape of a variable only as a tuple; a tuple with at
    least two entries is accepted, whatever follows the second entry and
    whatever the other options hold, and no other shape is accepted. *)
Theorem process_init_shape (kwargs : gmap string pyval) :
  (forall xs, get kwargs "shape" (PyTuple [PyInt 1; PyInt 1]) = PyTuple xs
              \/ get kwargs "shape" (PyTuple [PyInt 1; PyInt 1]) = PyList xs ->
              length xs < 2 -> raises (process.__init__ kwargs) IndexError)
  /\ (forall z, get kwargs "shape" (PyTuple [PyInt 1; PyInt 1]) = PyInt z ->
                raises (process.__init__ kwargs) TypeError)
  /\ (forall a b rest,
        get kwargs "shape" (PyTuple [PyInt 1; PyInt 1]) = PyList (a :: b :: rest) ->
        raises (process.__init__ kwargs) AssertionError)
  /\ (forall a b rest,
        get kwargs "shape" (PyTuple [PyInt 1; PyInt 1]) = PyTuple (a :: b :: rest) ->
        exists p, process.__init__ kwargs = Ok p
                  /\ in_shape (process.s_in p) = PyTuple [b]
                  /\ out_shape (process.s_out p) = PyTuple [a]
                  /\ var_shape (process.u p) = PyTuple [a]
                  /\ var_shape (process.v p) = PyTuple [a])
  /\ (completes (process.__init__ kwargs) ->
      exists a b rest,
        get kwargs "shape" (PyTuple [PyInt 1; PyInt 1]) = PyTuple (a :: b :: rest)).
Proof.
  split; [|split; [|split; [|split]]].
  - unfold raises, process.__init__.
    intros [|a [|b xs]] [-> | ->] Hlen; simpl in *; reflexivity || lia.
  - unfold raises, process.__init__. intros z ->. reflexivity.
  - unfold raises, process.__init__. intros a b rest ->. reflexivity.
  - unfold process.__init__. intros a b rest ->. cbn.
    eexists. split; [reflexivity|]. cbn. auto.
  - intros (p & Hp). now apply process_init_tuple in Hp.
Qed.

Lemma process_init_shape_witness :
  raises (process.__init__ kwargs_short_shape) IndexError
  /\ raises (process.__init__ kwargs_int_shape) TypeError
  /\ raises (process.__init__ kwargs_list_shape) AssertionError
  /\ exists p, process.__init__ kwargs_long_shape = Ok p
               /\ in_shape (process.s_in p) = PyTuple [PyInt 2]
               /\ out_shape (process.s_out p) = PyTuple [PyInt 2].
Proof.
  split; [|split; [|split]].
  - destruct (process_init_shape kwargs_short_shape) as (H & _).
    apply (H [PyInt 3]); [left; reflexivity | simpl; lia].
  - destruct (process_init_shape kwargs_int_shape) as (_ & H & _).
    apply (H 3%Z). reflexivity.
  - destruct (process_init_shape kwargs_list_shape) as (_ & _ & H & _).
    apply (H (PyInt 2) (PyInt 2) []). reflexivity.
  - destruct (process_init_shape kwargs_long_shape) as (_ & _ & _ & H & _).
    destruct (H (PyInt 2) (PyInt 2) [PyInt 7] eq_refl) as (p & Hp & Hi & Ho & _).
    exists p. auto.
Defined.

(** X2. A layer and its model are built only for a square shape: when the
    model of a layer of shape [(n_out, n_in)] is built, [n_out] is [n_in]
    and each of the three weight matrices is a 2-D array with [n_out]
    rows and [n_in] columns.  For unequal [n_out] and [n_in] and weights
    that are small whole numbers or omitted, the process is constructed
    and the construction of its model stops with the [AssertionError] of
    the framework. *)
Theorem built_layer_is_square (kwargs : gmap string pyval) (n_out n_in : nat) :
  get kwargs "shape" (PyTuple [PyInt 1; PyInt 1]) = shape_tuple n_out n_in ->
  (forall p m,
     build_layer kwargs = Ok (p, m) ->
     n_out = n_in
     /\ forall d, In d [models.dense m; models.dense_exc m; models.dense_inh m] ->
          exists W, models.weights d = PyNdarray W /\ nd_shape W = [n_out; n_in])
  /\ (n_out <> n_in ->
      exact_scalar_or_omitted kwargs "inp_weights" ->
      exact_scalar_or_omitted kwargs "exc_weights" ->
      exact_scalar_or_omitted kwargs "inh_weights" ->
      completes (process.__init__ kwargs)
      /\ raises (build_layer kwargs) AssertionError).
Proof.
  intros Hshape. split.
  - intros p m Hb. apply build_layer_Ok in Hb as (Hp & Hm).
    destruct (built_shapes kwargs p m _ _ Hshape Hp Hm)
      as (Hsq & Wi & Wx & Wh & Hwi & Hwx & Hwh & Hsi & Hsx & Hsh).
    apply Nat2Z.inj in Hsq. split; [exact Hsq|].
    assert (Hpair : forall W, map Z.of_nat (nd_shape W) = [Z.of_nat n_out; Z.of_nat n_in]
                              -> nd_shape W = [n_out; n_in]).
    { intros W HW. destruct (pair_of_nat _ _ _ HW) as (x & y & -> & Ex & Ey).
      apply Nat2Z.inj in Ex, Ey. congruence. }
    intros d [<- | [<- | [<- | []]]]; eauto.
  - intros Hne Hi Hx Hh.
    destruct (process_init_total kwargs _ _ _ Hshape) as (p & Hp).
    split; [now exists p|].
    pose proof (process_init_inversion _ _ Hp)
      as (n0 & n1 & _ & H1 & Hk & Hin & _).
    rewrite Hshape in H1. cbn in H1. injection H1 as <-.
    apply (exact_scalar_or_omitted_get _ _ 1) in Hi as (wi & Hi & Ei);
      [|unfold exact_in_float64; lia].
    apply (exact_scalar_or_omitted_get _ _ 5) in Hx as (wx & Hx & Ex);
      [|unfold exact_in_float64; lia].
    apply (exact_scalar_or_omitted_get _ _ (-5)) in Hh as (wh & Hh & Eh);
      [|unfold exact_in_float64; lia].
    destruct (diagonal_scalar n_out n_in wi Ei) as (Mi & HMi & Hsi & _).
    destruct (diagonal_scalar n_out n_in wx Ex) as (Mx & HMx & Hsx & _).
    destruct (off_diagonal_scalar n_out n_in wh Eh) as (Mh & HMh & Hsh & _).
    unfold raises, build_layer. rewrite Hp. cbn [bind].
    unfold models.__init__. rewrite Hk, Hshape, Hi, Hx, Hh, HMi, HMx, HMh.
    cbn [bind].
    rewrite !Dense_new_2d by (unfold ndim; rewrite ?Hsi, ?Hsx, ?Hsh; reflexivity).
    cbn [bind shape_tuple getitem nth_error]. rewrite Hin.
    cbn [in_shape models.Dense_s_in_shape models.weights]. rewrite Hsi. cbn [nth].
    rewrite connect_widths_differ by lia. reflexivity.
Qed.

Lemma built_layer_is_square_witness :
  (exists p m, build_layer kwargs_scalar = Ok (p, m)
               /\ exists W, models.weights (models.dense_inh m) = PyNdarray W
                            /\ nd_shape W = [3; 3])
  /\ completes (process.__init__ kwargs_2x3)
  /\ raises (build_layer kwargs_2x3) AssertionError.
Proof.
  split.
  - eexists. eexists.
    match goal with |- build_layer ?K = Ok (?P, ?M) /\ _ =>
      assert (Hb : build_layer K = Ok (P, M)) by reflexivity;
      destruct (built_layer_is_square K 3 3 eq_refl) as (H & _);
      destruct (H _ _ Hb) as (_ & Hd) end.
    split; [exact Hb|]. apply Hd. right. right. left. reflexivity.
  - destruct (built_layer_is_square kwargs_2x3 2 3 eq_refl) as (_ & H).
    apply H; [lia | | now left | now left].
    right. exists 1%Z. split; [reflexivity | unfold exact_in_float64; lia].
Defined.

(** ** Agreement of the process and its model *)

(** X3. For every configuration, the neuron parameters and the message
    width the sub-processes are constructed with are the initial values
    of the variables the process exposes for them, and the shape of the
    neuron population is the shape of the process's [u] and [v] variables
    and of its output port. *)
Theorem aliased_parameters_agree (kwargs : gmap string pyval)
    (p : process.WTALayer) (m : models.SubWTALayerModel) :
  process.__init__ kwargs = Ok p -> models.__init__ p = Ok m ->
  models.du (models.lif m) = var_init (process.du p)
  /\ models.dv (models.lif m) = var_init (process.dv p)
  /\ models.vth (models.lif m) = var_init (process.vth p)
  /\ models.num_message_bits (models.dense m)
     = Some (var_init (process.num_message_bits p))
  /\ models.shape (models.lif m) = var_shape (process.u p)
  /\ models.shape (models.lif m) = var_shape (process.v p)
  /\ models.shape (models.lif m) = out_shape (process.s_out p).
Proof.
  intros Hp Hm.
  apply process_init_inversion in Hp
    as (n_out & n_in & H0 & _ & Hk & _ & Ho & Hu & Hv & Hdu & Hdv & Hvth & _ & _ & _ & Hb).
  pose proof (init_lif _ _ Hm) as (n & Hn & Hlif).
  apply init_inversion in Hm as (_ & _ & _ & Hbm & _).
  rewrite Hk in *. assert (n = n_out) by congruence. subst n.
  rewrite Hlif, Hbm, Ho, Hu, Hv, Hdu, Hdv, Hvth, Hb. cbn. auto 10.
Qed.

Lemma aliased_parameters_agree_witness :
  exists p m,
    process.__init__ kwargs_graded = Ok p /\ models.__init__ p = Ok m
    /\ models.du (models.lif m) = var_init (process.du p)
    /\ models.num_message_bits (models.dense m)
       = Some (var_init (process.num_message_bits p))
    /\ models.shape (models.lif m) = var_shape (process.u p).
Proof.
  eexists. eexists. split; [reflexivity|].
  match goal with |- models.__init__ ?P = _ /\ _ =>
    split; [reflexivity|];
    destruct (aliased_parameters_agree kwargs_graded P _ eq_refl eq_refl)
      as (Hdu & _ & _ & Hb & Hs & _) end.
  auto.
Defined.

(** X4. For every configuration, the excitatory and inhibitory weight
    matrices of the model are the expansions of the initial values of the
    process's [exc_weights] and [inh_weights] variables, and so is the
    input weight matrix whenever [inp_weights] is given. *)
Theorem aliased_weights_agree (kwargs : gmap string pyval)
    (p : process.WTALayer) (m : models.SubWTALayerModel) :
  process.__init__ kwargs = Ok p -> models.__init__ p = Ok m ->
  models.diagonal_weights (var_shape (process.exc_weights p))
    (var_init (process.exc_weights p))
  = Ok (models.weights (models.dense_exc m))
  /\ models.off_diagonal_weights (var_shape (process.inh_weights p))
       (var_init (process.inh_weights p))
     = Ok (models.weights (models.dense_inh m))
  /\ (is_Some (kwargs !! "inp_weights") ->
      models.diagonal_weights (var_shape (process.inp_weights p))
        (var_init (process.inp_weights p))
      = Ok (models.weights (models.dense m))).
Proof.
  intros Hp Hm.
  apply process_init_inversion in Hp
    as (_ & _ & _ & _ & Hk & _ & _ & _ & _ & _ & _ & _ & Hi & Hx & Hh & _).
  apply init_inversion in Hm as (Him & Hxm & Hhm & _).
  rewrite Hk in *. rewrite Hi, Hx, Hh. cbn [var_shape var_init].
  split; [assumption|]. split; [assumption|].
  intros [w Hw]. rewrite (get_present _ _ (PyInt 0) _ Hw).
  now rewrite (get_present _ _ (PyInt 1) _ Hw) in Him.
Qed.

Lemma aliased_weights_agree_witness :
  exists p m,
    process.__init__ kwargs_scalar = Ok p /\ models.__init__ p = Ok m
    /\ models.diagonal_weights (var_shape (process.inp_weights p))
         (var_init (process.inp_weights p))
       = Ok (models.weights (models.dense m))
    /\ models.off_diagonal_weights (var_shape (process.inh_weights p))
         (var_init (process.inh_weights p))
       = Ok (models.weights (models.dense_inh m)).
Proof.
  eexists. eexists. split; [reflexivity|].
  match goal with |- models.__init__ ?P = _ /\ _ =>
    split; [reflexivity|];
    destruct (aliased_weights_agree kwargs_scalar P _ eq_refl eq_refl)
      as (_ & Hh & Hi) end.
  split; [apply Hi; eexists; reflexivity | exact Hh].
Defined.

(** ** Omitted options *)

(** X5. For a layer of shape [(n, n_in)], an option other than
    [inp_weights] that is left out gets the same value in the process and
    in its model: [du] 4095, [dv] 0, [vth] 10, [num_message_bits] 1, and
    the weight matrices of [exc_weights] 5 (5 on the diagonal) and of
    [inh_weights] -5 (-5 off the diagonal). *)
Theorem omitted_options (kwargs : gmap string pyval) (n n_in : nat)
    (p : process.WTALayer) (m : models.SubWTALayerModel) :
  get kwargs "shape" (PyTuple [PyInt 1; PyInt 1]) = shape_tuple n n_in ->
  process.__init__ kwargs = Ok p -> models.__init__ p = Ok m ->
  (kwargs !! "du" = None ->
   var_init (process.du p) = PyInt 4095 /\ models.du (models.lif m) = PyInt 4095)
  /\ (kwargs !! "dv" = None ->
      var_init (process.dv p) = PyInt 0 /\ models.dv (models.lif m) = PyInt 0)
  /\ (kwargs !! "vth" = None ->
      var_init (process.vth p) = PyInt 10 /\ models.vth (models.lif m) = PyInt 10)
  /\ (kwargs !! "num_message_bits" = None ->
      var_init (process.num_message_bits p) = PyInt 1
      /\ models.num_message_bits (models.dense m) = Some (PyInt 1))
  /\ (kwargs !! "exc_weights" = None ->
      var_init (process.exc_weights p) = PyInt 5
      /\ exists M, models.weights (models.dense_exc m) = PyNdarray M
                   /\ nd_shape M = [n; n]
                   /\ forall i j, i < n -> j < n ->
                        item2 M i j = if i =? j then 5%Z else 0%Z)
  /\ (kwargs !! "inh_weights" = None ->
      var_init (process.inh_weights p) = PyInt (-5)
      /\ exists M, models.weights (models.dense_inh m) = PyNdarray M
                   /\ nd_shape M = [n; n]
                   /\ forall i j, i < n -> j < n ->
                        item2 M i j = if i =? j then 0%Z else (-5)%Z).
Proof.
  intros Hshape Hp Hm.
  destruct (defaults_shared kwargs p m Hp Hm) as (Hdu & Hdv & Hvth & Hb & Hx & Hh).
  rewrite Hshape in Hx, Hh. conjuncts. split.
  - intros Hnone. destruct (Hx Hnone) as (Hv & Hw). split; [exact Hv|].
    destruct (diagonal_scalar n n_in 5) as (M & HM & Hs & _ & He);
      [unfold exact_in_float64; lia|].
    exists M. rewrite HM in Hw. injection Hw as <-. auto.
  - intros Hnone. destruct (Hh Hnone) as (Hv & Hw). split; [exact Hv|].
    destruct (off_diagonal_scalar n n_in (-5)) as (M & HM & Hs & _ & He);
      [unfold exact_in_float64; lia|].
    exists M. rewrite HM in Hw. injection Hw as <-. auto.
Qed.

Lemma omitted_options_witness :
  exists p m M,
    process.__init__ kwargs_shape_only = Ok p /\ models.__init__ p = Ok m
    /\ models.du (models.lif m) = PyInt 4095
    /\ models.vth (models.lif m) = PyInt 10
    /\ models.weights (models.dense_inh m) = PyNdarray M
    /\ item2 M 0 1 = (-5)%Z /\ item2 M 1 1 = 0%Z.
Proof.
  eexists. eexists.
  match goal with |- exists M, process.__init__ ?K = Ok ?P /\ _ =>
    destruct (omitted_options K 2 2 P _ eq_refl eq_refl eq_refl)
      as (Hdu & _ & Hvth & _ & _ & Hh) end.
  destruct (Hh eq_refl) as (_ & M & HM & _ & He).
  exists M. split; [reflexivity|]. split; [reflexivity|].
  split; [apply Hdu; reflexivity|]. split; [apply Hvth; reflexivity|].
  split; [exact HM|]. split; [apply (He 0 1); lia | apply (He 1 1); lia].
Defined.

(** ** The weights handed to the pathways *)

Lemma expansion_gives_array (shape w r : pyval) :
  models.diagonal_weights shape w = Ok r
  \/ models.off_diagonal_weights shape w = Ok r ->
  exists M, r = PyNdarray M /\ 2 <= ndim M
            /\ (forall b, np_asarray w = Ok b -> ndim M = Nat.max 2 (ndim b)).
Proof.
  intros H. destruct (is_ndarray_2d w) eqn:E.
  - assert (r = w) as ->.
    { unfold models.diagonal_weights, models.off_diagonal_weights in H.
      rewrite E in H. destruct H as [H|H]; now injection H. }
    apply is_ndarray_2d_spec in E as (a & -> & Ha). exists a.
    split; [reflexivity|]. split; [lia|].
    intros b [= <-]. lia.
  - destruct H as [H|H].
    + apply diagonal_weights_Ok in H as (k & b & M & Hb & HM & ->); [|exact E].
      apply elementwise_Ok, broadcast_shapes_length in HM. cbn in HM.
      exists M. unfold ndim. split; [reflexivity|]. split; [lia|].
      intros b' Hb'. assert (b' = b) by congruence. subst. exact HM.
    + apply off_diagonal_weights_Ok in H as (D & b & M & HD & Hb & HM & ->);
        [|exact E].
      apply elementwise_Ok, broadcast_shapes_length in HM.
      unfold ndim in *. rewrite HD in HM.
      exists M. split; [reflexivity|]. split; [lia|].
      intros b' Hb'. assert (b' = b) by congruence. subst. exact HM.
Qed.

(** X6. Whatever the weight options hold, the three [Dense] processes of
    a model that is built are given numpy arrays of at least two
    dimensions, never a bare number or a list. *)
Theorem dense_weights_are_arrays (p : process.WTALayer)
    (m : models.SubWTALayerModel) :
  models.__init__ p = Ok m ->
  forall d, In d [models.dense m; models.dense_exc m; models.dense_inh m] ->
  exists M, models.weights d = PyNdarray M /\ 2 <= ndim M.
Proof.
  intros H d Hd. apply init_inversion in H as (Hi & Hx & Hh & _).
  destruct Hd as [<- | [<- | [<- | []]]];
    [ destruct (expansion_gives_array _ _ _ (or_introl Hi)) as (M & HM & H2 & _)
    | destruct (expansion_gives_array _ _ _ (or_introl Hx)) as (M & HM & H2 & _)
    | destruct (expansion_gives_array _ _ _ (or_intror Hh)) as (M & HM & H2 & _) ];
    eauto.
Qed.

Lemma dense_weights_are_arrays_witness :
  exists p m M,
    process.__init__ kwargs_vectors = Ok p /\ models.__init__ p = Ok m
    /\ models.weights (models.dense_exc m) = PyNdarray M /\ 2 <= ndim M.
Proof.
  eexists. eexists.
  match goal with |- exists M, process.__init__ ?K = Ok ?P /\ _ = Ok ?m /\ _ =>
    assert (Hp : process.__init__ K = Ok P) by reflexivity;
    assert (Hm : models.__init__ P = Ok m) by reflexivity end.
  match type of Hm with models.__init__ ?P = Ok ?m0 =>
    destruct (dense_weights_are_arrays P m0 Hm (models.dense_exc m0))
      as (M & HM & H2); [right; left; reflexivity|] end.
  exists M. split; [exact Hp|]. split; [exact Hm|]. split; [exact HM | exact H2].
Defined.

(** X7. Expanding twice is expanding once: the weight a pathway gets
    from a number, a sequence or an array of at most two dimensions is
    returned unchanged when it is passed as the weight option again, for
    any layer shape. *)
Theorem expansion_idempotent (shape shape' w r : pyval) (b : ndarray) :
  np_asarray w = Ok b -> ndim b <= 2 ->
  (models.diagonal_weights shape w = Ok r ->
   models.diagonal_weights shape' r = Ok r
   /\ models.off_diagonal_weights shape' r = Ok r)
  /\ (models.off_diagonal_weights shape w = Ok r ->
      models.diagonal_weights shape' r = Ok r
      /\ models.off_diagonal_weights shape' r = Ok r).
Proof.
  intros Hb H2.
  assert (Hkeep : forall M, ndim M = 2 ->
            models.diagonal_weights shape' (PyNdarray M) = Ok (PyNdarray M)
            /\ models.off_diagonal_weights shape' (PyNdarray M) = Ok (PyNdarray M)).
  { intros M HM. unfold models.diagonal_weights, models.off_diagonal_weights.
    cbn [is_ndarray_2d]. now rewrite HM. }
  split; intros H;
    [ destruct (expansion_gives_array _ _ _ (or_introl H)) as (M & -> & _ & Hn)
    | destruct (expansion_gives_array _ _ _ (or_intror H)) as (M & -> & _ & Hn) ];
    apply Hkeep; rewrite (Hn b Hb); lia.
Qed.

Lemma expansion_idempotent_witness :
  exists r,
    models.diagonal_weights (shape_tuple 3 3) (PyTuple [PyInt 7; PyInt 8; PyInt 9]) = Ok r
    /\ models.diagonal_weights (shape_tuple 5 5) r = Ok r
    /\ models.off_diagonal_weights (shape_tuple 5 5) r = Ok r.
Proof.
  eexists. split; [reflexivity|].
  match goal with |- models.diagonal_weights _ ?R = _ /\ _ =>
    destruct (expansion_idempotent (shape_tuple 3 3) (shape_tuple 5 5)
                (PyTuple [PyInt 7; PyInt 8; PyInt 9]) R
                {| nd_shape := [3]; nd_data := [7; 8; 9]%Z |} eq_refl)
      as (H & _); [unfold ndim; simpl; lia|] end.
  apply H. reflexivity.
Defined.

(** ** 1-D weights *)

Lemma broadcast_shapes_one (n : nat) : broadcast_shapes [n; n] [1] = Some [n; n].
Proof.
  unfold broadcast_shapes. simpl.
  destruct (Nat.eqb_spec n 1) as [->|Hn]; reflexivity.
Qed.

Lemma broadcast_shapes_row_mismatch (n k : nat) :
  k <> n -> k <> 1 -> n <> 1 -> broadcast_shapes [n; n] [k] = None.
Proof.
  intros Hkn Hk Hn. unfold broadcast_shapes. simpl.
  destruct (Nat.eqb_spec n k); [congruence|].
  destruct (Nat.eqb_spec n 1); [congruence|].
  destruct (Nat.eqb_spec k 1); [congruence|]. reflexivity.
Qed.

(** An array of one element multiplies like a number. *)
Lemma elementwise_singleton (op : Z -> Z -> Z) (a : ndarray) (n : nat) (x : Z) :
  nd_shape a = [n; n] ->
  elementwise op a {| nd_shape := [1]; nd_data := [x] |}
  = elementwise op a {| nd_shape := []; nd_data := [x] |}.
Proof.
  intros Ha. unfold elementwise. cbn [nd_shape nd_data]. rewrite Ha.
  rewrite broadcast_shapes_one, broadcast_shapes_scalar.
  destruct (sequence (map float64_of_int [x])) as [fb|e]; [|reflexivity].
  cbn [bind]. do 2 f_equal. apply map_ext. intros idx. f_equal.
  unfold item, broadcast_index. cbn [nd_shape nd_data length].
  now destruct (drop (length idx - 1) idx).
Qed.

(** X8. A 1-D weight of one element, a tuple, a list or an array, is
    expanded exactly like the number it holds, for every pathway and
    layer size. *)
Theorem singleton_weight_is_scalar (n n_in : nat) (x : Z) (w : pyval) :
  w = PyTuple [PyInt x] \/ w = PyList [PyInt x]
  \/ w = PyNdarray {| nd_shape := [1]; nd_data := [x] |} ->
  models.diagonal_weights (shape_tuple n n_in) w
  = models.diagonal_weights (shape_tuple n n_in) (PyInt x)
  /\ models.off_diagonal_weights (shape_tuple n n_in) w
     = models.off_diagonal_weights (shape_tuple n n_in) (PyInt x).
Proof.
  intros Hw.
  assert (H2 : is_ndarray_2d w = false)
    by (destruct Hw as [-> | [-> | ->]]; reflexivity).
  assert (Hb : np_asarray w = Ok {| nd_shape := [1]; nd_data := [x] |})
    by (destruct Hw as [-> | [-> | ->]]; reflexivity).
  rewrite !diagonal_expansion, !off_diagonal_expansion by (assumption || reflexivity).
  rewrite Hb. cbn [np_asarray bind].
  now rewrite !(elementwise_singleton _ _ n) by reflexivity.
Qed.

Lemma singleton_weight_is_scalar_witness :
  models.diagonal_weights (shape_tuple 3 3) (PyTuple [PyInt 4])
  = models.diagonal_weights (shape_tuple 3 3) (PyInt 4)
  /\ models.off_diagonal_weights (shape_tuple 3 3) (PyTuple [PyInt 4])
     = models.off_diagonal_weights (shape_tuple 3 3) (PyInt 4).
Proof.
  apply (singleton_weight_is_scalar 3 3 4%Z). left. reflexivity.
Defined.

(** X9. A 1-D weight whose length is neither 1 nor the number of neurons
    of a layer with more than one neuron is refused by numpy: both
    expansions raise [ValueError], and so does the construction of the
    model of a layer given such input weights. *)
Theorem wrong_length_weight (n n_in : nat) (ws : list Z) (w : pyval) :
  w = PyTuple (map PyInt ws) \/ w = PyList (map PyInt ws)
  \/ w = PyNdarray {| nd_shape := [length ws]; nd_data := ws |} ->
  length ws <> n -> length ws <> 1 -> n <> 1 ->
  raises (models.diagonal_weights (shape_tuple n n_in) w) ValueError
  /\ raises (models.off_diagonal_weights (shape_tuple n n_in) w) ValueError
  /\ forall kwargs,
       get kwargs "shape" (PyTuple [PyInt 1; PyInt 1]) = shape_tuple n n_in ->
       kwargs !! "inp_weights" = Some w ->
       raises (build_layer kwargs) ValueError.
Proof.
  intros Hw Hn H1 Hn1.
  assert (H2 : is_ndarray_2d w = false).
  { destruct Hw as [-> | [-> | ->]]; reflexivity. }
  assert (Hb : np_asarray w = Ok {| nd_shape := [length ws]; nd_data := ws |}).
  { destruct Hw as [-> | [-> | ->]];
      rewrite ?np_asarray_list, ?np_asarray_ints; reflexivity. }
  assert (Hd : models.diagonal_weights (shape_tuple n n_in) w = Raise ValueError).
  { rewrite diagonal_expansion, Hb by assumption. cbn [bind].
    unfold elementwise. cbn [nd_shape eye].
    now rewrite broadcast_shapes_row_mismatch. }
  unfold raises. split; [exact Hd|]. split.
  - rewrite off_diagonal_expansion, Hb by assumption. cbn [bind].
    unfold elementwise. cbn [nd_shape J_minus_I].
    now rewrite broadcast_shapes_row_mismatch.
  - intros kwargs Hshape Hi.
    destruct (process_init_total kwargs _ _ _ Hshape) as (p & Hp).
    pose proof (process_init_inversion _ _ Hp) as (_ & _ & _ & _ & Hk & _).
    unfold build_layer. rewrite Hp. cbn [bind]. unfold models.__init__.
    rewrite Hk, Hshape, (get_present _ _ _ _ Hi), Hd. reflexivity.
Qed.

Lemma wrong_length_weight_witness :
  raises (models.diagonal_weights (shape_tuple 3 3) (PyTuple [PyInt 1; PyInt 2]))
         ValueError
  /\ raises (build_layer kwargs_bad_length) ValueError.
Proof.
  destruct (wrong_length_weight 3 3 [1; 2]%Z (PyTuple [PyInt 1; PyInt 2]))
    as (Hd & _ & Hb); [now left | simpl; lia | simpl; lia | lia |].
  split; [exact Hd | apply Hb; reflexivity].
Defined.

Lemma off_diagonal_row (n n_in : nat) (w : pyval) (ws : list Z) :
  is_ndarray_2d w = false ->
  np_asarray w = Ok {| nd_shape := [n]; nd_data := ws |} ->
  Forall exact_in_float64 ws ->
  exists M,
    models.off_diagonal_weights (shape_tuple n n_in) w = Ok (PyNdarray M)
    /\ nd_shape M = [n; n] /\ length (nd_data M) = n * n
    /\ forall i j, i < n -> j < n ->
         item2 M i j = if i =? j then 0%Z else nth j ws 0%Z.
Proof.
  intros H2 Hb Hex.
  unfold models.off_diagonal_weights. rewrite H2.
  cbn [negb shape_tuple getitem nth_error bind].
  rewrite np_ones_square. cbn [bind]. rewrite np_eye_of_nat. cbn [bind].
  rewrite np_subtract_ones_eye. cbn [bind].
  destruct (np_multiply_row (J_minus_I n) n w ws eq_refl Hb Hex)
    as (M & HM & Hs & Hl & He).
  rewrite HM. exists M. conjuncts.
  intros i j Hi Hj. rewrite He, item2_J_minus_I by assumption.
  destruct (i =? j); lia.
Qed.

(** The forms of a 1-D weight: a tuple, a list or a 1-D array. *)
Lemma row_weight_asarray (ws : list Z) (w : pyval) :
  w = PyTuple (map PyInt ws) \/ w = PyList (map PyInt ws)
  \/ w = PyNdarray {| nd_shape := [length ws]; nd_data := ws |} ->
  is_ndarray_2d w = false
  /\ np_asarray w = Ok {| nd_shape := [length ws]; nd_data := ws |}.
Proof.
  intros [-> | [-> | ->]]; (split; [reflexivity|]);
    rewrite ?np_asarray_list, ?np_asarray_ints; reflexivity.
Qed.

(** X10. For a 1-D weight [ws] of as many entries as the layer has
    neurons, each a whole number of magnitude at most [2 ^ 53], the
    inhibitory matrix has 0 on the diagonal and [ws[j]] in every other
    cell of column [j]: neuron [j] inhibits each other neuron with its own
    weight. *)
Theorem inhibitory_row_weights (n n_in : nat) (ws : list Z) (w : pyval) :
  length ws = n -> Forall exact_in_float64 ws ->
  w = PyTuple (map PyInt ws) \/ w = PyList (map PyInt ws)
  \/ w = PyNdarray {| nd_shape := [n]; nd_data := ws |} ->
  exists M,
    models.off_diagonal_weights (shape_tuple n n_in) w = Ok (PyNdarray M)
    /\ nd_shape M = [n; n] /\ length (nd_data M) = n * n
    /\ forall i j, i < n -> j < n ->
         item2 M i j = if i =? j then 0%Z else nth j ws 0%Z.
Proof.
  intros Hlen Hex Hw. subst n.
  destruct (row_weight_asarray ws w Hw) as (H2 & Hb).
  now apply off_diagonal_row.
Qed.

Lemma inhibitory_row_weights_witness :
  exists M,
    models.off_diagonal_weights (shape_tuple 3 3)
      (PyList [PyInt (-1); PyInt (-2); PyInt (-3)]) = Ok (PyNdarray M)
    /\ item2 M 0 2 = (-3)%Z /\ item2 M 1 2 = (-3)%Z /\ item2 M 2 2 = 0%Z.
Proof.
  destruct (inhibitory_row_weights 3 3 [-1; -2; -3]%Z
              (PyList [PyInt (-1); PyInt (-2); PyInt (-3)]) eq_refl)
    as (M & HM & _ & _ & He).
  - repeat constructor; unfold exact_in_float64; lia.
  - right. left. reflexivity.
  - exists M. split; [exact HM|].
    split; [apply (He 0 2); lia|]. split; [apply (He 1 2); lia | apply (He 2 2); lia].
Defined.

(** ** The pattern of the expanded matrices *)

(** X11. Whatever value of the embedding other than a 2-D array a weight
    option holds (a whole number, or a tuple, list or array of whole
    numbers, nested or not, of any magnitude), an [n] by [n] result of the
    input or excitatory expansion is 0 off the diagonal, and an [n] by [n]
    result of the inhibitory expansion is 0 on the diagonal. *)
Theorem expansion_pattern (n n_in : nat) (w : pyval) (M : ndarray) :
  is_ndarray_2d w = false -> nd_shape M = [n; n] ->
  (models.diagonal_weights (shape_tuple n n_in) w = Ok (PyNdarray M) ->
   forall i j, i < n -> j < n -> i <> j -> item2 M i j = 0%Z)
  /\ (models.off_diagonal_weights (shape_tuple n n_in) w = Ok (PyNdarray M) ->
      forall i, i < n -> item2 M i i = 0%Z).
Proof.
  intros H2 Hs.
  assert (Hent : forall (a : ndarray) (b : ndarray),
            nd_shape a = [n; n] -> elementwise Z.mul a b = Ok M ->
            forall i j, i < n -> j < n ->
              exists y, item2 M i j = (item2 a i j * y)%Z).
  { intros a b Ha HM i j Hi Hj.
    pose proof (elementwise_Ok _ _ _ _ HM) as Hbs. rewrite Ha, Hs in Hbs.
    destruct (elementwise_converts _ _ _ _ HM) as (fb & Hfb).
    destruct (elementwise_2d Z.mul a b n n fb Ha Hbs Hfb) as (r & Hr & _ & _ & He).
    assert (r = M) by congruence. subst r. rewrite He by assumption. eauto. }
  split; intros H.
  - rewrite diagonal_expansion in H by assumption.
    apply bind_Ok in H as (b & _ & H). apply bind_Ok in H as (r & Hr & [= ->]).
    intros i j Hi Hj Hne.
    destruct (Hent (eye n) b eq_refl Hr i j Hi Hj) as (y & ->).
    rewrite item2_eye by assumption.
    destruct (Nat.eqb_spec i j); [contradiction | reflexivity].
  - rewrite off_diagonal_expansion in H by assumption.
    apply bind_Ok in H as (b & _ & H). apply bind_Ok in H as (r & Hr & [= ->]).
    intros i Hi.
    destruct (Hent (J_minus_I n) b eq_refl Hr i i Hi Hi) as (y & ->).
    rewrite item2_J_minus_I by assumption.
    now rewrite Nat.eqb_refl.
Qed.

Lemma expansion_pattern_witness :
  exists M,
    models.diagonal_weights (shape_tuple 2 2) nested_2x2 = Ok (PyNdarray M)
    /\ item2 M 0 1 = 0%Z /\ item2 M 1 0 = 0%Z.
Proof.
  eexists. split; [reflexivity|].
  match goal with |- item2 ?M _ _ = _ /\ _ =>
    destruct (expansion_pattern 2 2 nested_2x2 M eq_refl eq_refl) as (H & _) end.
  split; [apply (H eq_refl 0 1); lia | apply (H eq_refl 1 0); lia].
Defined.

(** ** A layer without a shape *)

(** X12. When [shape] is left out and the weights are whole numbers of
    magnitude at most [2 ^ 53] or left out, the layer is built for the
    default shape (1, 1): its ports, its [u] and [v] variables and its
    neuron population have size 1, the excitatory matrix is the 1 by 1
    matrix of the excitatory weight, and the inhibitory matrix is the 1 by
    1 zero matrix whatever the inhibitory weight: the single neuron does
    not inhibit itself. *)
Theorem default_shape_single_neuron (kwargs : gmap string pyval) :
  kwargs !! "shape" = None ->
  exact_scalar_or_omitted kwargs "inp_weights" ->
  exact_scalar_or_omitted kwargs "exc_weights" ->
  exact_scalar_or_omitted kwargs "inh_weights" ->
  exists p m Mx Mh,
    build_layer kwargs = Ok (p, m)
    /\ in_shape (process.s_in p) = PyTuple [PyInt 1]
    /\ out_shape (process.s_out p) = PyTuple [PyInt 1]
    /\ var_shape (process.u p) = PyTuple [PyInt 1]
    /\ var_shape (process.v p) = PyTuple [PyInt 1]
    /\ models.shape (models.lif m) = PyTuple [PyInt 1]
    /\ models.weights (models.dense_exc m) = PyNdarray Mx
    /\ nd_shape Mx = [1; 1]
    /\ PyInt (item2 Mx 0 0) = get kwargs "exc_weights" (PyInt 5)
    /\ models.weights (models.dense_inh m) = PyNdarray Mh
    /\ nd_shape Mh = [1; 1] /\ item2 Mh 0 0 = 0%Z.
Proof.
  intros Hnone Hi Hx Hh.
  assert (Hshape : get kwargs "shape" (PyTuple [PyInt 1; PyInt 1]) = shape_tuple 1 1)
    by now rewrite get_absent.
  destruct (process_init_total kwargs _ _ _ Hshape) as (p & Hp).
  pose proof (process_init_inversion _ _ Hp)
    as (n0 & n1 & H0 & H1 & Hk & Hin & Hout & Hu & Hv & _).
  rewrite Hshape in H0, H1. injection H0 as <-. injection H1 as <-.
  apply (exact_scalar_or_omitted_get _ _ 1) in Hi as (wi & Hi & Ei);
    [|unfold exact_in_float64; lia].
  apply (exact_scalar_or_omitted_get _ _ 5) in Hx as (wx & Hx & Ex);
    [|unfold exact_in_float64; lia].
  apply (exact_scalar_or_omitted_get _ _ (-5)) in Hh as (wh & Hh & Eh);
    [|unfold exact_in_float64; lia].
  destruct (diagonal_scalar 1 1 wi Ei) as (Mi & HMi & Hsi & _).
  destruct (diagonal_scalar 1 1 wx Ex) as (Mx & HMx & Hsx & _ & Hex).
  destruct (off_diagonal_scalar 1 1 wh Eh) as (Mh & HMh & Hsh & _ & Heh).
  rewrite <- Hi in HMi. rewrite <- Hx in HMx. rewrite <- Hh in HMh.
  destruct (init_square kwargs p 1 Mi Mx Mh Hshape Hp HMi HMx HMh Hsi Hsx Hsh)
    as (m & Hm & _ & Hwx & Hwh & Hl).
  exists p, m, Mx, Mh. split; [now apply build_layer_Ok|].
  rewrite Hin, Hout, Hu, Hv, Hx. cbn [in_shape out_shape var_shape].
  rewrite (Hex 0 0), (Heh 0 0) by lia. cbn [Nat.eqb].
  auto 12.
Qed.

Lemma default_shape_single_neuron_witness :
  exists p m Mx Mh,
    build_layer kwargs_no_shape = Ok (p, m)
    /\ out_shape (process.s_out p) = PyTuple [PyInt 1]
    /\ models.weights (models.dense_exc m) = PyNdarray Mx
    /\ PyInt (item2 Mx 0 0) = PyInt 6
    /\ models.weights (models.dense_inh m) = PyNdarray Mh
    /\ item2 Mh 0 0 = 0%Z.
Proof.
  destruct (default_shape_single_neuron kwargs_no_shape)
    as (p & m & Mx & Mh & Hb & _ & Ho & _ & _ & _ & Hx & _ & Hex & Hh & _ & Heh).
  - reflexivity.
  - now left.
  - right. exists 6%Z. split; [reflexivity | unfold exact_in_float64; lia].
  - right. exists (-9)%Z. split; [reflexivity | unfold exact_in_float64; lia].
  - exists p, m, Mx, Mh. auto 10.
Defined.

(** ** The documented weight forms *)

Lemma documented_diagonal (n n_in : nat) (w : pyval) :
  documented_weight n w ->
  exists M, models.diagonal_weights (shape_tuple n n_in) w = Ok (PyNdarray M)
            /\ nd_shape M = [n; n].
Proof.
  intros [(x & Hx & ->) | [(ws & Hl & Hex & Hw) | (a & Ha & ->)]].
  - destruct (diagonal_scalar n n_in x Hx) as (M & HM & Hs & _). eauto.
  - subst n. destruct (row_weight_asarray ws w Hw) as (H2 & Hb).
    destruct (diagonal_row (length ws) n_in w ws H2 Hb Hex) as (M & HM & Hs & _).
    eauto.
  - exists a. split; [|exact Ha].
    unfold models.diagonal_weights, is_ndarray_2d, ndim. now rewrite Ha.
Qed.

Lemma documented_off_diagonal (n n_in : nat) (w : pyval) :
  documented_weight n w ->
  exists M, models.off_diagonal_weights (shape_tuple n n_in) w = Ok (PyNdarray M)
            /\ nd_shape M = [n; n].
Proof.
  intros [(x & Hx & ->) | [(ws & Hl & Hex & Hw) | (a & Ha & ->)]].
  - destruct (off_diagonal_scalar n n_in x Hx) as (M & HM & Hs & _). eauto.
  - subst n. destruct (row_weight_asarray ws w Hw) as (H2 & Hb).
    destruct (off_diagonal_row (length ws) n_in w ws H2 Hb Hex) as (M & HM & Hs & _).
    eauto.
  - exists a. split; [|exact Ha].
    unfold models.off_diagonal_weights, is_ndarray_2d, ndim. now rewrite Ha.
Qed.

Lemma documented_option_get (kwargs : gmap string pyval) (key : string)
    (n : nat) (d : Z) :
  exact_in_float64 d ->
  documented_option kwargs key n -> documented_weight n (get kwargs key (PyInt d)).
Proof.
  unfold documented_option, get. intros Hd. destruct (kwargs !! key); simpl; [auto|].
  intros _. left. eauto.
Qed.

(** X13. A square layer of [n] neurons, [n] positive, whose weight
    options are each left out or of a documented form (a whole number, a
    1-D tuple, list or array with one whole number per neuron, each of
    magnitude at most [2 ^ 53], or a 2-D array of [n] rows and [n]
    columns) is always built, together with its model. *)
Theorem documented_weights_accepted (kwargs : gmap string pyval) (n : nat) :
  0 < n ->
  get kwargs "shape" (PyTuple [PyInt 1; PyInt 1]) = shape_tuple n n ->
  documented_option kwargs "inp_weights" n ->
  documented_option kwargs "exc_weights" n ->
  documented_option kwargs "inh_weights" n ->
  completes (build_layer kwargs).
Proof.
  intros _ Hshape Hi Hx Hh.
  destruct (process_init_total kwargs _ _ _ Hshape) as (p & Hp).
  apply (documented_option_get _ _ _ 1), (documented_diagonal n n) in Hi
    as (Mi & HMi & Hsi); [|unfold exact_in_float64; lia].
  apply (documented_option_get _ _ _ 5), (documented_diagonal n n) in Hx
    as (Mx & HMx & Hsx); [|unfold exact_in_float64; lia].
  apply (documented_option_get _ _ _ (-5)), (documented_off_diagonal n n) in Hh
    as (Mh & HMh & Hsh); [|unfold exact_in_float64; lia].
  destruct (init_square kwargs p n Mi Mx Mh Hshape Hp HMi HMx HMh Hsi Hsx Hsh)
    as (m & Hm & _).
  exists (p, m). now apply build_layer_Ok.
Qed.

Lemma documented_weights_accepted_witness : completes (build_layer kwargs_vectors).
Proof.
  apply (documented_weights_accepted kwargs_vectors 3).
  - lia.
  - reflexivity.
  - right. left. exists [1; 2; 3]%Z. split; [reflexivity|].
    split; [repeat constructor; unfold exact_in_float64; lia|].
    left. reflexivity.
  - right. left. exists [4; 5; 6]%Z. split; [reflexivity|].
    split; [repeat constructor; unfold exact_in_float64; lia|].
    right. right. reflexivity.
  - right. left. exists [-1; -2; -3]%Z. split; [reflexivity|].
    split; [repeat constructor; unfold exact_in_float64; lia|].
    right. left. reflexivity.
Defined.

(** ** 1-D weights for a single neuron *)

Lemma broadcast_shapes_single (k : nat) : broadcast_shapes [1; 1] [k] = Some [1; k].
Proof.
  destruct k as [|[|k]]; reflexivity.
Qed.

Lemma map_seq_nth (l : list Z) (g : nat -> Z) :
  (forall j, j < length l -> g j = nth j l 0%Z) ->
  map g (seq 0 (length l)) = l.
Proof.
  intros H. apply (nth_ext _ _ 0%Z 0%Z).
  - now rewrite length_map, length_seq.
  - intros j Hj. rewrite length_map, length_seq in Hj.
    rewrite (nth_indep _ 0%Z (g 0)) by (now rewrite length_map, length_seq).
    rewrite map_nth, seq_nth by assumption. now apply H.
Qed.

(** X14. In a layer with a single neuron, a 1-D weight of [k] whole
    numbers of magnitude at most [2 ^ 53] is not put on a diagonal: the
    input and excitatory expansion returns the 1 by [k] row of the weights
    themselves, and the inhibitory expansion the 1 by [k] row of zeros. *)
Theorem single_neuron_row_weights (n_in : nat) (ws : list Z) (w : pyval) :
  Forall exact_in_float64 ws ->
  w = PyTuple (map PyInt ws) \/ w = PyList (map PyInt ws)
  \/ w = PyNdarray {| nd_shape := [length ws]; nd_data := ws |} ->
  models.diagonal_weights (shape_tuple 1 n_in) w
  = Ok (PyNdarray {| nd_shape := [1; length ws]; nd_data := ws |})
  /\ models.off_diagonal_weights (shape_tuple 1 n_in) w
     = Ok (PyNdarray {| nd_shape := [1; length ws];
                        nd_data := repeat 0%Z (length ws) |}).
Proof.
  intros Hex Hw.
  destruct (row_weight_asarray ws w Hw) as (H2 & Hb).
  rewrite diagonal_expansion, off_diagonal_expansion, Hb by assumption.
  cbn [bind]. unfold elementwise. cbn [nd_shape nd_data eye J_minus_I].
  rewrite broadcast_shapes_single, (sequence_float64_exact ws Hex), ndindex_2d.
  cbn [bind seq flat_map]. rewrite !app_nil_r, !map_map.
  split; do 3 f_equal.
  - apply map_seq_nth. intros j Hj.
    unfold item, broadcast_index. cbn [nd_shape nd_data length Nat.sub drop zip_with].
    destruct (Nat.eqb_spec (length ws) 1) as [E|E]; cbn.
    + assert (j = 0) as -> by lia. now destruct (nth 0 ws 0%Z).
    + replace (j * 1 + 0) with j by lia. now destruct (nth j ws 0%Z).
  - transitivity (map (fun _ : nat => 0%Z) (seq 0 (length ws))).
    + apply map_ext. intros j. reflexivity.
    + now rewrite map_const_repeat, length_seq.
Qed.

Lemma single_neuron_row_weights_witness :
  models.diagonal_weights (shape_tuple 1 3) (PyTuple [PyInt 7; PyInt 8; PyInt 9])
  = Ok (PyNdarray {| nd_shape := [1; 3]; nd_data := [7; 8; 9]%Z |}).
Proof.
  destruct (single_neuron_row_weights 3 [7; 8; 9]%Z
              (PyTuple [PyInt 7; PyInt 8; PyInt 9])) as (H & _).
  - repeat constructor; unfold exact_in_float64; lia.
  - left. reflexivity.
  - exact H.
Defined.
